(** * Polymarket anomaly monitor: a shallow embedding of [polymarket_monitor.py]

    The development follows the source file top to bottom: configuration
    constants, the two dataclasses, the SQLite tables and the six [db_*]
    functions, the Data-API calls, scoring and filtering, and the body of the
    polling loop.

    Modelling choices:
    - Python [float] is IEEE 754 binary64, taken from the Standard Library's
      executable specification [SpecFloat] (precision 53, [emax] 1024), with
      round-to-nearest-even as CPython uses.
    - Python [int] is [Z]; [str] is [string] (a string of bytes, UTF-8).
    - Values whose type is only known at run time (decoded JSON, and the [size]
      and [price] attributes that [Trade.est_cash] passes through [float()]
      inside [try]) are elements of [value].
    - Effects are explicit: a computation reads an environment (what the wall
      clock and the Data API answer) and threads a state (the database, the
      number of clock readings so far, the requests sent, the alerts emitted),
      and it either returns or raises.
    - SQLite is modelled by its relational behaviour: a table is the list of its
      rows, [INSERT OR REPLACE] deletes the rows that conflict on the primary
      key and appends the new one, a plain [INSERT] on a conflicting key raises.
      A column holds the value written to it: the storage classes of SQLite
      (64-bit INTEGER, a NaN kept as NULL) are not modelled.
    - A string built by an f-string (a reason, the alert message) is
      represented by the values it formats.
    - [fetch_recent_large_trades], the sort of the batch and the [while True] of
      [main] are outside the model: the [for] loop and its body take the batch
      they are given. *)

From Stdlib Require Import ZArith List String Ascii Bool Lia SpecFloat.
Import ListNotations.
Local Open Scope string_scope.
Local Open Scope list_scope.
Local Open Scope Z_scope.

(** ** Python floats *)

Definition float : Type := spec_float.

Module PyFloat.

Definition prec : Z := 53.
Definition emax : Z := 1024.

Definition mul : float -> float -> float := SFmul prec emax.
Definition add : float -> float -> float := SFadd prec emax.
Definition sub : float -> float -> float := SFsub prec emax.
Definition div : float -> float -> float := SFdiv prec emax.

(** [x <= y] and [x < y]; both are [False] as soon as one side is NaN. *)
Definition leb : float -> float -> bool := SFleb.
Definition ltb : float -> float -> bool := SFltb.

(** The float nearest to an integer (ties to even); infinite when the integer
    is out of range. *)
Definition round_Z (z : Z) : float := binary_normalize prec emax z 0 false.

(** [float(z)] for an [int] [z]: CPython raises [OverflowError] when the
    integer is too large for a double. *)
Definition of_Z (z : Z) : option float :=
  match round_Z z with
  | S754_infinity _ => None
  | f => Some f
  end.

(** [int(f)]: truncation toward zero; [ValueError] on NaN and
    [OverflowError] on an infinity. *)
Definition to_Z (f : float) : option Z :=
  match f with
  | S754_zero _ => Some 0
  | S754_finite s m e => Some (cond_Zopp s (Z.shiftl (Zpos m) e))
  | S754_infinity _ | S754_nan => None
  end.

(** A float literal with an integral value, such as [86400.0] or [0.0]. *)
Definition lit (z : Z) : float := round_Z z.

Definition zero : float := S754_zero false.

End PyFloat.

#[local] Set Warnings "-register-all".

(** ** Python values of a type known only at run time *)

Inductive value : Type :=
| VNone
| VBool (b : bool)
| VInt (z : Z)
| VFloat (f : float)
| VStr (s : string)
| VList (items : list value)
| VDict (entries : list (string * value)).

(** [d.get(key)] / [d[key]] on a decoded JSON object; [None] stands for a
    missing key. *)
Fixpoint dict_get (key : string) (entries : list (string * value)) : option value :=
  match entries with
  | [] => None
  | (k, v) :: rest => if String.eqb k key then Some v else dict_get key rest
  end.

(** What this development takes from the Python runtime without modelling it:
    [str.lower], and the parsing of a string by [int()] and by [float()]
    ([None] when Python raises [ValueError]). *)
Class PyRuntime : Type := {
  str_lower : string -> string;
  int_of_str : string -> option Z;
  float_of_str : string -> option float
}.

Section Builtins.
Context {RT : PyRuntime}.

(** [int(v)]; [None] when Python raises ([TypeError], [ValueError] or
    [OverflowError]). *)
Definition py_int (v : value) : option Z :=
  match v with
  | VInt z => Some z
  | VBool b => Some (if b then 1 else 0)
  | VFloat f => PyFloat.to_Z f
  | VStr s => int_of_str s
  | VNone | VList _ | VDict _ => None
  end.

(** [float(v)]; [None] when Python raises. *)
Definition py_float (v : value) : option float :=
  match v with
  | VFloat f => Some f
  | VInt z => PyFloat.of_Z z
  | VBool b => Some (PyFloat.lit (if b then 1 else 0))
  | VStr s => float_of_str s
  | VNone | VList _ | VDict _ => None
  end.

End Builtins.

(** ** Config *)

Definition FRESH_DAYS : Z := 14.
Definition LOW_ACTIVITY_MARKETS : Z := 6.
Definition CLUSTER_MINUTES : Z := 120.
Definition CLUSTER_COUNT : Z := 2.
Definition ALERT_SCORE_THRESHOLD : Z := 6.

Definition W_FRESH : Z := 3.
Definition W_LOW_ACTIVITY : Z := 2.
Definition W_BIG_TRADE : Z := 2.
Definition W_CLUSTER : Z := 2.

Definition BIG_TRADE_TIER_1 : Z := 10000.
Definition BIG_TRADE_TIER_2 : Z := 25000.

Definition INCLUDE_KEYWORDS : list string := [].
Definition EXCLUDE_KEYWORDS : list string := ["sports"].

(** ** Data structures *)

(** [size] and [price] are annotated [float], but a dataclass does not enforce
    annotations and [est_cash] converts both with [float()] under [try]: they
    are kept as run-time values. *)
Record Trade : Type := {
  proxy_wallet : string;
  side : string;
  condition_id : string;
  size : value;
  price : value;
  timestamp : Z;
  title : string;
  slug : string;
  outcome : string;
  tx_hash : string
}.

Record WalletProfile : Type := {
  wallet : string;
  traded_markets : option Z;
  first_seen_ts : option Z;
  recent_cash_24h : option float
}.

Section EstCash.
Context {RT : PyRuntime}.

(** The property [Trade.est_cash]: [float(self.size) * float(self.price)],
    and [0.0] when either conversion raises. *)
Definition est_cash (t : Trade) : float :=
  match py_float (size t) with
  | Some s =>
      match py_float (price t) with
      | Some p => PyFloat.mul s p
      | None => PyFloat.zero
      end
  | None => PyFloat.zero
  end.

End EstCash.

(** ** SQLite persistence *)

(** A row of [seen_trades] (primary key [tx_hash]). *)
Record seen_row : Type := {
  sr_tx_hash : string;
  sr_timestamp : Z;
  sr_wallet : string;
  sr_condition_id : string
}.

(** A row of [wallet_cache] (primary key [wallet]); the other columns are
    nullable. *)
Record cache_row : Type := {
  cr_wallet : string;
  cr_traded_markets : option Z;
  cr_first_seen_ts : option Z;
  cr_recent_cash_24h : option float;
  cr_updated_at : option Z
}.

(** A row of [wallet_hits] (primary key [id], AUTOINCREMENT). *)
Record hit_row : Type := {
  hr_id : Z;
  hr_wallet : string;
  hr_hit_ts : Z
}.

(** The database file: the three tables, and the largest [id] ever given out
    in [wallet_hits] (SQLite's [sqlite_sequence]). *)
Record Db : Type := {
  seen_trades : list seen_row;
  wallet_cache : list cache_row;
  wallet_hits : list hit_row;
  hits_seq : Z
}.

(** A file that does not exist yet: [db_connect] creates the three tables
    empty. On an existing file [CREATE TABLE IF NOT EXISTS] changes nothing. *)
Definition empty_db : Db :=
  {| seen_trades := []; wallet_cache := []; wallet_hits := []; hits_seq := 0 |}.

Definition db_connect (file : option Db) : Db :=
  match file with
  | Some d => d
  | None => empty_db
  end.

(** Conflict resolution of an [INSERT] on a table with a text primary key. *)
Inductive on_conflict : Type := Abort | Replace.

Section Tables.
Context {R : Type} (key : R -> string).

Definition has_key (k : string) (tbl : list R) : bool :=
  existsb (fun r => String.eqb (key r) k) tbl.

Definition without_key (k : string) (tbl : list R) : list R :=
  filter (fun r => negb (String.eqb (key r) k)) tbl.

(** The rows with key [k]. *)
Definition rows_with (k : string) (tbl : list R) : list R :=
  filter (fun r => String.eqb (key r) k) tbl.

(** [SELECT ... WHERE key = k] followed by [fetchone()]. *)
Definition select_one (k : string) (tbl : list R) : option R :=
  find (fun r => String.eqb (key r) k) tbl.

(** [INSERT] ([Abort]) and [INSERT OR REPLACE] ([Replace]); [None] is
    [sqlite3.IntegrityError]. *)
Definition sql_insert (policy : on_conflict) (row : R) (tbl : list R) : option (list R) :=
  if has_key (key row) tbl then
    match policy with
    | Abort => None
    | Replace => Some (without_key (key row) tbl ++ [row])
    end
  else Some (tbl ++ [row]).

End Tables.

(** [SELECT COUNT( * ) FROM wallet_hits WHERE wallet = ? AND hit_ts >= ?]. *)
Definition count_hits (hits : list hit_row) (w : string) (since_ts : Z) : Z :=
  Z.of_nat (List.length
    (filter (fun h => String.eqb (hr_wallet h) w && (since_ts <=? hr_hit_ts h)) hits)).

(** ** Effects: the clock, the Data API, the database, the alert sinks *)

Inductive exn : Type :=
| HTTPError
| ConnectionError
| ValueError
| TypeError
| OverflowError
| AttributeError
| IntegrityError.

Record request : Type := {
  path : string;
  params : list (string * value)
}.

(** What [http_get] meets: [Raises e] when [_session.get], [raise_for_status]
    or [r.json()] raises [e], and [Returns v] for the decoded body. *)
Inductive response : Type :=
| Raises (e : exn)
| Returns (v : value).

(** The world outside the process. [clock n] is what the [n]-th call of
    [time.time()] returns; [data_api n r] is the answer to request [r] when [n]
    requests were sent before it; [webhook] is [DISCORD_WEBHOOK_URL]. *)
Record Env : Type := {
  clock : nat -> float;
  data_api : nat -> request -> response;
  webhook : option string
}.

(** The f-strings appended to [reasons], each with the values it formats:
    [fresh_wallet(..d)], [low_activity(traded=..)], [big_trade(est_cash..)],
    [very_big_trade] and [cluster(hits=.. in 120m)]. *)
Inductive reason : Type :=
| fresh_wallet (age_days : float)
| low_activity (traded : Z)
| big_trade (cash : float)
| very_big_trade
| cluster (hits : Z).

(** The message built by [format_alert], by the values it formats. *)
Record alert : Type := {
  al_trade : Trade;
  al_profile : WalletProfile;
  al_score : Z;
  al_reasons : list reason;
  al_cluster_hits : Z;
  al_age_days : option float
}.

Record State : Type := {
  db : Db;
  ticks : nat;
  requests : list request;
  console : list alert;
  discord : list alert
}.

Definition with_db (f : Db -> Db) (st : State) : State :=
  {| db := f (db st); ticks := ticks st; requests := requests st;
     console := console st; discord := discord st |}.

Definition tick (st : State) : State :=
  {| db := db st; ticks := S (ticks st); requests := requests st;
     console := console st; discord := discord st |}.

Definition sent (r : request) (st : State) : State :=
  {| db := db st; ticks := ticks st; requests := requests st ++ [r];
     console := console st; discord := discord st |}.

Definition printed (a : alert) (st : State) : State :=
  {| db := db st; ticks := ticks st; requests := requests st;
     console := console st ++ [a]; discord := discord st |}.

Definition posted (a : alert) (st : State) : State :=
  {| db := db st; ticks := ticks st; requests := requests st;
     console := console st; discord := discord st ++ [a] |}.

(** A computation: it returns a value or raises, and leaves a state either
    way (what was committed before an exception stays committed). *)
Definition M (A : Type) : Type := Env -> State -> (exn + A) * State.

Definition ret {A : Type} (a : A) : M A := fun _ st => (inr a, st).

Definition raise {A : Type} (e : exn) : M A := fun _ st => (inl e, st).

Definition bind {A B : Type} (c : M A) (k : A -> M B) : M B :=
  fun env st =>
    match c env st with
    | (inr a, st') => k a env st'
    | (inl e, st') => (inl e, st')
    end.

Notation "x <- c ;; k" := (bind c (fun x => k))
  (at level 61, c at next level, right associativity).
Notation "c ;;; k" := (bind c (fun _ => k))
  (at level 61, right associativity).

Definition get_db : M Db := fun _ st => (inr (db st), st).

Definition modify_db (f : Db -> Db) : M unit := fun _ st => (inr tt, with_db f st).

(** [time.time()]. *)
Definition time_time : M float :=
  fun env st => (inr (clock env (ticks st)), tick st).

(** [int(f)] for a float [f]. *)
Definition int_of_float (f : float) : M Z :=
  match PyFloat.to_Z f with
  | Some z => ret z
  | None => raise (match f with S754_nan => ValueError | _ => OverflowError end)
  end.

(** [int(time.time())]. *)
Definition time_int : M Z := now <- time_time ;; int_of_float now.

(** ** SQLite persistence, continued *)

Definition set_seen_trades (tbl : list seen_row) (d : Db) : Db :=
  {| seen_trades := tbl; wallet_cache := wallet_cache d;
     wallet_hits := wallet_hits d; hits_seq := hits_seq d |}.

Definition set_wallet_cache (tbl : list cache_row) (d : Db) : Db :=
  {| seen_trades := seen_trades d; wallet_cache := tbl;
     wallet_hits := wallet_hits d; hits_seq := hits_seq d |}.

(** The [id] AUTOINCREMENT gives the next row: one more than the largest ever
    used. *)
Definition next_hit_id (d : Db) : Z :=
  1 + fold_right Z.max (hits_seq d) (map hr_id (wallet_hits d)).

Definition add_hit (w : string) (hit_ts : Z) (d : Db) : Db :=
  let i := next_hit_id d in
  {| seen_trades := seen_trades d; wallet_cache := wallet_cache d;
     wallet_hits := wallet_hits d ++ [{| hr_id := i; hr_wallet := w; hr_hit_ts := hit_ts |}];
     hits_seq := i |}.

Definition db_seen_trade (tx : string) : M bool :=
  d <- get_db ;;
  ret (match select_one sr_tx_hash tx (seen_trades d) with
       | Some _ => true
       | None => false
       end).

Definition seen_row_of (t : Trade) : seen_row :=
  {| sr_tx_hash := tx_hash t; sr_timestamp := timestamp t;
     sr_wallet := proxy_wallet t; sr_condition_id := condition_id t |}.

Definition db_mark_trade_seen (t : Trade) : M unit :=
  d <- get_db ;;
  match sql_insert sr_tx_hash Replace (seen_row_of t) (seen_trades d) with
  | Some tbl => modify_db (set_seen_trades tbl)
  | None => raise IntegrityError
  end.

Definition DEFAULT_MAX_AGE : Z := 6 * 3600.

Definition profile_of_row (w : string) (r : cache_row) : WalletProfile :=
  {| wallet := w; traded_markets := cr_traded_markets r;
     first_seen_ts := cr_first_seen_ts r; recent_cash_24h := cr_recent_cash_24h r |}.

Definition db_get_wallet_cache (w : string) (max_age_seconds : Z) : M (option WalletProfile) :=
  d <- get_db ;;
  match select_one cr_wallet w (wallet_cache d) with
  | None => ret None
  | Some row =>
      now <- time_int ;;
      match cr_updated_at row with
      | Some updated_at =>
          if now - updated_at <=? max_age_seconds
          then ret (Some (profile_of_row w row))
          else ret None
      | None => ret None
      end
  end.

Definition cache_row_of (p : WalletProfile) (now : Z) : cache_row :=
  {| cr_wallet := wallet p; cr_traded_markets := traded_markets p;
     cr_first_seen_ts := first_seen_ts p; cr_recent_cash_24h := recent_cash_24h p;
     cr_updated_at := Some now |}.

Definition db_set_wallet_cache (p : WalletProfile) : M unit :=
  now <- time_int ;;
  d <- get_db ;;
  match sql_insert cr_wallet Replace (cache_row_of p now) (wallet_cache d) with
  | Some tbl => modify_db (set_wallet_cache tbl)
  | None => raise IntegrityError
  end.

Definition db_add_wallet_hit (w : string) (hit_ts : Z) : M unit :=
  modify_db (add_hit w hit_ts).

Definition db_count_wallet_hits (w : string) (since_ts : Z) : M Z :=
  d <- get_db ;;
  ret (count_hits (wallet_hits d) w since_ts).

(** ** Polymarket API calls *)

Definition http_get (p : string) (ps : list (string * value)) : M value :=
  fun env st =>
    let r := {| path := p; params := ps |} in
    match data_api env (List.length (requests st)) r with
    | Raises e => (inl e, sent r st)
    | Returns v => (inr v, sent r st)
    end.

Section Fetch.
Context {RT : PyRuntime}.

(** The part of [fetch_traded_markets_count] after the request. *)
Definition traded_of (data : value) : option Z :=
  match data with
  | VDict entries =>
      match dict_get "traded" entries with
      | Some v => py_int v
      | None => None
      end
  | _ => None
  end.

Definition fetch_traded_markets_count (w : string) : M (option Z) :=
  data <- http_get "/traded" [("user", VStr w)] ;;
  ret (traded_of data).

(** The part of [fetch_wallet_first_seen_ts] after the request: [.get] on a
    first element that is not an object raises outside the [try]. *)
Definition first_seen_of (data : value) : exn + option Z :=
  match data with
  | VList (VDict entries :: _) =>
      match dict_get "timestamp" entries with
      | Some ts => inr (py_int ts)
      | None => inr None
      end
  | VList (_ :: _) => inl AttributeError
  | _ => inr None
  end.

Definition lift {A : Type} (r : exn + A) : M A :=
  match r with
  | inl e => raise e
  | inr a => ret a
  end.

Definition fetch_wallet_first_seen_ts (w : string) : M (option Z) :=
  data <- http_get "/activity"
            [("user", VStr w); ("limit", VInt 1); ("offset", VInt 0);
             ("sortBy", VStr "TIMESTAMP"); ("sortDirection", VStr "ASC");
             ("type", VStr "TRADE")] ;;
  lift (first_seen_of data).

(** The loop of [fetch_wallet_recent_cash_24h] over the rows, from the running
    [total] and [any_usdc]. *)
Fixpoint sum_usdc (rows : list value) (total : float) (any_usdc : bool) : exn + option float :=
  match rows with
  | [] => inr (if any_usdc then Some total else None)
  | VDict entries :: rest =>
      match dict_get "usdcSize" entries with
      | None | Some VNone => sum_usdc rest total any_usdc
      | Some usdc =>
          match py_float usdc with
          | Some f => sum_usdc rest (PyFloat.add total f) true
          | None => sum_usdc rest total any_usdc
          end
      end
  | _ :: _ => inl AttributeError
  end.

Definition recent_cash_of (data : value) : exn + option float :=
  match data with
  | VList rows => sum_usdc rows PyFloat.zero false
  | _ => inr None
  end.

Definition fetch_wallet_recent_cash_24h (w : string) : M (option float) :=
  now <- time_int ;;
  let start := now - 24 * 3600 in
  data <- http_get "/activity"
            [("user", VStr w); ("limit", VInt 100); ("offset", VInt 0);
             ("sortBy", VStr "TIMESTAMP"); ("sortDirection", VStr "DESC");
             ("type", VStr "TRADE"); ("start", VInt start); ("end", VInt now)] ;;
  lift (recent_cash_of data).

Definition get_wallet_profile (w : string) : M WalletProfile :=
  cached <- db_get_wallet_cache w DEFAULT_MAX_AGE ;;
  match cached with
  | Some p => ret p
  | None =>
      traded <- fetch_traded_markets_count w ;;
      first_seen <- fetch_wallet_first_seen_ts w ;;
      recent <- fetch_wallet_recent_cash_24h w ;;
      let profile :=
        {| wallet := w; traded_markets := traded;
           first_seen_ts := first_seen; recent_cash_24h := recent |} in
      db_set_wallet_cache profile ;;;
      ret profile
  end.

(** ** Scoring + filtering *)

(** [needle in hay]. *)
Fixpoint contains (needle hay : string) : bool :=
  String.prefix needle hay ||
  match hay with
  | EmptyString => false
  | String _ rest => contains needle rest
  end.

Definition any_keyword_in (keywords : list string) (t : string) : bool :=
  existsb (fun k => contains (str_lower k) t) keywords.

Definition nonempty {A : Type} (l : list A) : bool :=
  match l with
  | [] => false
  | _ :: _ => true
  end.

Definition title_allowed (title : string) : bool :=
  let t := str_lower title in
  if nonempty INCLUDE_KEYWORDS && negb (any_keyword_in INCLUDE_KEYWORDS t) then false
  else if nonempty EXCLUDE_KEYWORDS && any_keyword_in EXCLUDE_KEYWORDS t then false
  else true.

(** [days_since]: [None] for [None] and for [0] ([not ts]); otherwise the clock
    is read and [ts] becomes a float for the subtraction. *)
Definition days_since (ts : option Z) : M (option float) :=
  match ts with
  | None | Some 0 => ret None
  | Some z =>
      now <- time_time ;;
      match PyFloat.of_Z z with
      | Some tsf => ret (Some (PyFloat.div (PyFloat.sub now tsf) (PyFloat.lit 86400)))
      | None => raise OverflowError
      end
  end.

(** [if cond: score += w; reasons.append(r)]. *)
Definition rule (cond : bool) (w : Z) (r : reason) (acc : Z * list reason) : Z * list reason :=
  if cond then (fst acc + w, snd acc ++ [r]) else acc.

(** The four rules of [score_trade], once the age is known. A float is compared
    with an [int] constant by value; the constants are exact as floats. *)
Definition score_rules (age_days : option float) (t : Trade) (p : WalletProfile)
    (cluster_hits : Z) : Z * list reason :=
  let acc := (0, []) in
  let acc :=
    match age_days with
    | Some a => rule (PyFloat.leb a (PyFloat.lit FRESH_DAYS)) W_FRESH (fresh_wallet a) acc
    | None => acc
    end in
  let acc :=
    match traded_markets p with
    | Some n => rule (n <=? LOW_ACTIVITY_MARKETS) W_LOW_ACTIVITY (low_activity n) acc
    | None => acc
    end in
  let cash := est_cash t in
  let acc := rule (PyFloat.leb (PyFloat.lit BIG_TRADE_TIER_1) cash) W_BIG_TRADE (big_trade cash) acc in
  let acc := rule (PyFloat.leb (PyFloat.lit BIG_TRADE_TIER_2) cash) 1 very_big_trade acc in
  rule (CLUSTER_COUNT <=? cluster_hits) W_CLUSTER (cluster cluster_hits) acc.

Definition score_trade (t : Trade) (p : WalletProfile) (cluster_hits : Z)
    : M (Z * list reason) :=
  age_days <- days_since (first_seen_ts p) ;;
  ret (score_rules age_days t p cluster_hits).

(** ** Alerts *)

Definition format_alert (t : Trade) (p : WalletProfile) (score : Z)
    (reasons : list reason) (cluster_hits : Z) : M alert :=
  age_days <- days_since (first_seen_ts p) ;;
  ret {| al_trade := t; al_profile := p; al_score := score; al_reasons := reasons;
         al_cluster_hits := cluster_hits; al_age_days := age_days |}.

(** [send_discord] catches whatever the post raises: it only leaves the message
    with the sink. *)
Definition send_discord (msg : alert) : M unit :=
  fun _ st => (inr tt, posted msg st).

Definition print (msg : alert) : M unit :=
  fun _ st => (inr tt, printed msg st).

Definition get_webhook : M (option string) :=
  fun env st => (inr (webhook env), st).

(** ** Main loop *)

Definition is_empty (s : string) : bool :=
  match s with
  | EmptyString => true
  | String _ _ => false
  end.

(** The two filters at the head of the loop body: a trade they drop is passed
    over with [continue]. *)
Definition dropped (t : Trade) : bool :=
  is_empty (tx_hash t) || is_empty (proxy_wallet t) || negb (title_allowed (title t)).

(** [db_add_wallet_hit], [window_start] and [db_count_wallet_hits], as the loop
    body runs them in a row. *)
Definition record_and_count_hits (t : Trade) : M Z :=
  db_add_wallet_hit (proxy_wallet t) (timestamp t) ;;;
  now <- time_int ;;
  let window_start := now - CLUSTER_MINUTES * 60 in
  db_count_wallet_hits (proxy_wallet t) window_start.

(** The body of [for t in trades]. Its first statement in the source, an [if]
    on a conditional expression whose condition is the constant [False], tests
    nothing and does nothing. *)
Definition process_trade (t : Trade) : M unit :=
  if is_empty (tx_hash t) || is_empty (proxy_wallet t) then ret tt
  else if negb (title_allowed (title t)) then ret tt
  else
    seen <- db_seen_trade (tx_hash t) ;;
    if seen then ret tt
    else
      cluster_hits <- record_and_count_hits t ;;
      profile <- get_wallet_profile (proxy_wallet t) ;;
      sr <- score_trade t profile cluster_hits ;;
      let '(score, reasons) := sr in
      (if ALERT_SCORE_THRESHOLD <=? score then
         msg <- format_alert t profile score reasons cluster_hits ;;
         print msg ;;;
         hook <- get_webhook ;;
         match hook with
         | Some _ => send_discord msg
         | None => ret tt
         end
       else ret tt) ;;;
      db_mark_trade_seen t.

(** The [for] loop over the batch, already sorted by [(timestamp, tx_hash)]:
    the first exception ends it (the [try] is around the whole loop). *)
Fixpoint process_trades (trades : list Trade) : M unit :=
  match trades with
  | [] => ret tt
  | t :: rest => process_trade t ;;; process_trades rest
  end.

End Fetch.

(** ** Runs of the program against the database *)

(** The calls that reach the database: the six [db_*] functions, the profile
    lookup and the loop body. *)
Inductive call : Type :=
| SeenTrade (tx : string)
| MarkTradeSeen (t : Trade)
| GetWalletCache (w : string) (max_age_seconds : Z)
| SetWalletCache (p : WalletProfile)
| AddWalletHit (w : string) (hit_ts : Z)
| CountWalletHits (w : string) (since_ts : Z)
| GetWalletProfile (w : string)
| ProcessTrade (t : Trade).

Definition forget {A : Type} (c : M A) : M unit := _ <- c ;; ret tt.

Section Runs.
Context {RT : PyRuntime}.

Definition run_call (c : call) : M unit :=
  match c with
  | SeenTrade tx => forget (db_seen_trade tx)
  | MarkTradeSeen t => db_mark_trade_seen t
  | GetWalletCache w a => forget (db_get_wallet_cache w a)
  | SetWalletCache p => db_set_wallet_cache p
  | AddWalletHit w ts => db_add_wallet_hit w ts
  | CountWalletHits w ts => forget (db_count_wallet_hits w ts)
  | GetWalletProfile w => forget (get_wallet_profile w)
  | ProcessTrade t => process_trade t
  end.

(** The state after a series of calls, each started where the previous one
    stopped, whether it returned or raised. *)
Definition run_calls (env : Env) (cs : list call) (st : State) : State :=
  fold_left (fun s c => snd (run_call c env s)) cs st.

End Runs.

(** The process at start-up, on the database file [file] ([None]: no file
    yet). *)
Definition boot (file : option Db) : State :=
  {| db := db_connect file; ticks := 0; requests := []; console := []; discord := [] |}.

(** The number of rows of [seen_trades] with a given [tx_hash]. *)
Definition seen_count (tx : string) (d : Db) : nat :=
  List.length (rows_with sr_tx_hash tx (seen_trades d)).

(** A computation keeps a property of the state: it holds after the
    computation, returned or raised, when it held before. *)
Definition preserves {A : Type} (I : State -> Prop) (c : M A) : Prop :=
  forall env st, I st -> I (snd (c env st)).

(** A property that only looks at the database. *)
Definition stable (I : State -> Prop) : Prop :=
  forall st st', db st' = db st -> I st -> I st'.

(** The primary key of [seen_trades] is a key: no [tx_hash] is in two rows. *)
Definition ledger_ok (st : State) : Prop :=
  NoDup (map sr_tx_hash (seen_trades (db st))).

(** [f < 0]. *)
Definition negative (f : float) : bool := PyFloat.ltb f PyFloat.zero.

(** The weight each reason stands for in [score_trade]. *)
Definition weight_of (r : reason) : Z :=
  match r with
  | fresh_wallet _ => W_FRESH
  | low_activity _ => W_LOW_ACTIVITY
  | big_trade _ => W_BIG_TRADE
  | very_big_trade => 1
  | cluster _ => W_CLUSTER
  end.

Definition total_weight (rs : list reason) : Z :=
  fold_right (fun r acc => weight_of r + acc) 0 rs.

(** The score and the reasons go together: what the rules added to the score
    is the weight of the reasons they appended. *)
Definition balanced (acc : Z * list reason) : Prop := fst acc = total_weight (snd acc).

(** The three requests of a profile refresh, as [http_get] records them. *)
Definition traded_request (w : string) : request :=
  {| path := "/traded"; params := [("user", VStr w)] |}.

Definition first_seen_request (w : string) : request :=
  {| path := "/activity";
     params := [("user", VStr w); ("limit", VInt 1); ("offset", VInt 0);
                ("sortBy", VStr "TIMESTAMP"); ("sortDirection", VStr "ASC");
                ("type", VStr "TRADE")] |}.

Definition recent_cash_request (w : string) (now : Z) : request :=
  {| path := "/activity";
     params := [("user", VStr w); ("limit", VInt 100); ("offset", VInt 0);
                ("sortBy", VStr "TIMESTAMP"); ("sortDirection", VStr "DESC");
                ("type", VStr "TRADE"); ("start", VInt (now - 24 * 3600));
                ("end", VInt now)] |}.

(** [wallet_cache] after [db_set_wallet_cache] wrote profile [p] at time
    [now]. *)
Definition cache_after (p : WalletProfile) (now : Z) (tbl : list cache_row) : list cache_row :=
  without_key cr_wallet (wallet p) tbl ++ [cache_row_of p now].

(** * Worked inputs *)

(** A runtime for the worked inputs below. It lowers the ASCII letters and
    reads plain decimal numerals; Python's own functions accept more, and every
    general statement of this file holds for an arbitrary runtime. *)
Definition ascii_lower (c : ascii) : ascii :=
  let n := nat_of_ascii c in
  if (Nat.leb 65 n && Nat.leb n 90)%bool then ascii_of_nat (n + 32) else c.

Fixpoint lower (s : string) : string :=
  match s with
  | EmptyString => EmptyString
  | String c rest => String (ascii_lower c) (lower rest)
  end.

Definition digit_of (c : ascii) : option Z :=
  let n := nat_of_ascii c in
  if (Nat.leb 48 n && Nat.leb n 57)%bool then Some (Z.of_nat (n - 48)) else None.

Fixpoint digits_from (acc : Z) (s : string) : option Z :=
  match s with
  | EmptyString => Some acc
  | String c rest =>
      match digit_of c with
      | Some d => digits_from (10 * acc + d) rest
      | None => None
      end
  end.

Definition decimal (s : string) : option Z :=
  match s with
  | EmptyString => None
  | String _ _ => digits_from 0 s
  end.

Definition plain_runtime : PyRuntime :=
  {| str_lower := lower;
     int_of_str := decimal;
     float_of_str := fun s =>
       match decimal s with
       | Some z => PyFloat.of_Z z
       | None => None
       end |}.

(** A clock that reads 2025-11-05 00:00:00 UTC first and gains a second with
    every reading. *)
Definition midnight : Z := 1762300800.

Definition ticking_clock (n : nat) : float := PyFloat.lit (midnight + Z.of_nat n).

(** A Data API that answers every request with an error status. *)
Definition api_down (n : nat) (r : request) : response := Raises HTTPError.

Definition env_down : Env :=
  {| clock := ticking_clock; data_api := api_down; webhook := None |}.

(** A trade of 1000 shares at 20, stamped 28 hours before [midnight]. *)
Definition old_trade : Trade :=
  {| proxy_wallet := "0xa11ce"; side := "BUY"; condition_id := "0xc0";
     size := VFloat (PyFloat.lit 1000); price := VFloat (PyFloat.lit 20);
     timestamp := midnight - 28 * 3600;
     title := "Will it rain tomorrow?"; slug := "rain-tomorrow";
     outcome := "Yes"; tx_hash := "0x01" |}.

(** The same trade stamped one minute before [midnight]. *)
Definition recent_trade : Trade :=
  {| proxy_wallet := "0xa11ce"; side := "BUY"; condition_id := "0xc0";
     size := VFloat (PyFloat.lit 1000); price := VFloat (PyFloat.lit 20);
     timestamp := midnight - 60;
     title := "Will it rain tomorrow?"; slug := "rain-tomorrow";
     outcome := "Yes"; tx_hash := "0x02" |}.

(** A trade on a market whose title names a sport. *)
Definition sports_trade : Trade :=
  {| proxy_wallet := "0xa11ce"; side := "BUY"; condition_id := "0xc1";
     size := VFloat (PyFloat.lit 1000); price := VFloat (PyFloat.lit 20);
     timestamp := midnight - 60;
     title := "Sports: who wins the final?"; slug := "final";
     outcome := "Yes"; tx_hash := "0x03" |}.

(** A row of the feed with a negative [size] gives this trade:
    [float(row.get("size", 0))] accepts any number. *)
Definition negative_size_trade : Trade :=
  {| proxy_wallet := "0xa11ce"; side := "SELL"; condition_id := "0xc0";
     size := VFloat (PyFloat.lit (-1000)); price := VFloat (PyFloat.lit 20);
     timestamp := midnight - 60;
     title := "Will it rain tomorrow?"; slug := "rain-tomorrow";
     outcome := "Yes"; tx_hash := "0x04" |}.

(** A trade object whose [size] is not a number. *)
Definition malformed_size_trade : Trade :=
  {| proxy_wallet := "0xa11ce"; side := "BUY"; condition_id := "0xc0";
     size := VNone; price := VFloat (PyFloat.lit 20);
     timestamp := midnight - 60;
     title := "Will it rain tomorrow?"; slug := "rain-tomorrow";
     outcome := "Yes"; tx_hash := "0x05" |}.

(** The profile of the example scenario: three markets, first seen five days
    before [midnight]. *)
Definition scenario_profile : WalletProfile :=
  {| wallet := "0xa11ce"; traded_markets := Some 3;
     first_seen_ts := Some (midnight - 5 * 86400); recent_cash_24h := None |}.

(** The same world thirty days later. *)
Definition env_later : Env :=
  {| clock := fun n => PyFloat.lit (midnight + 30 * 86400 + Z.of_nat n);
     data_api := api_down; webhook := None |}.

(** A Data API that answers: [/traded] with an object that lacks the ["traded"]
    key, the oldest activity with a row stamped five days before [midnight],
    the recent activity with one row of 20000 USDC. *)
Definition api_partial (n : nat) (r : request) : response :=
  if String.eqb (path r) "/traded" then Returns (VDict [("user", VStr "0xa11ce")])
  else
    match dict_get "sortDirection" (params r) with
    | Some (VStr "ASC") =>
        Returns (VList [VDict [("timestamp", VInt (midnight - 5 * 86400))]])
    | _ => Returns (VList [VDict [("usdcSize", VFloat (PyFloat.lit 20000))]])
    end.

Definition env_partial : Env :=
  {| clock := ticking_clock; data_api := api_partial; webhook := None |}.

(** A database whose cache holds a profile of the wallet written seven hours
    before [midnight]. *)
Definition stale_row : cache_row :=
  {| cr_wallet := "0xa11ce"; cr_traded_markets := Some 3;
     cr_first_seen_ts := Some (midnight - 5 * 86400);
     cr_recent_cash_24h := None; cr_updated_at := Some (midnight - 7 * 3600) |}.

Definition stale_state : State :=
  {| db := set_wallet_cache [stale_row] empty_db; ticks := 0; requests := [];
     console := []; discord := [] |}.

(** The same with a profile written one hour before [midnight]. *)
Definition fresh_row : cache_row :=
  {| cr_wallet := "0xa11ce"; cr_traded_markets := Some 3;
     cr_first_seen_ts := Some (midnight - 5 * 86400);
     cr_recent_cash_24h := None; cr_updated_at := Some (midnight - 3600) |}.

Definition fresh_state : State :=
  {| db := set_wallet_cache [fresh_row] empty_db; ticks := 0; requests := [];
     console := []; discord := [] |}.

(** A database with two earlier hits of the wallet: one a minute before
    [midnight], one exactly two hours before it. *)
Definition two_hits_state : State :=
  with_db (add_hit "0xa11ce" (midnight - 7200))
    (with_db (add_hit "0xa11ce" (midnight - 60)) (boot None)).

(** A database with one hit of the wallet, ten minutes before [midnight]. *)
Definition one_hit_state : State :=
  with_db (add_hit "0xa11ce" (midnight - 600)) (boot None).

(** A Data API that knows the wallet of the example scenario: 3 markets
    traded, first activity five days before [midnight], 20000 USDC in the last
    day. *)
Definition api_scenario (n : nat) (r : request) : response :=
  if String.eqb (path r) "/traded"
  then Returns (VDict [("user", VStr "0xa11ce"); ("traded", VInt 3)])
  else
    match dict_get "sortDirection" (params r) with
    | Some (VStr "ASC") =>
        Returns (VList [VDict [("timestamp", VInt (midnight - 5 * 86400))]])
    | _ => Returns (VList [VDict [("usdcSize", VFloat (PyFloat.lit 20000))]])
    end.

Definition env_scenario : Env :=
  {| clock := ticking_clock; data_api := api_scenario; webhook := Some "https://hook" |}.

(** * Properties *)

(** Closes a case of a refresh that stopped early: the requests sent so far
    extend the log, and the cache is as it was. *)
Ltac stopped :=
  split; [eexists; simpl; rewrite <- ?app_assoc; reflexivity | reflexivity].

(** ** Tables with a primary key *)

Section TableFacts.
Context {R : Type} (key : R -> string).

Lemma has_key_false (k : string) (tbl : list R) :
  has_key key k tbl = false -> ~ In k (map key tbl).
Proof.
  unfold has_key. induction tbl as [|r tbl IH]; simpl; intros H.
  - tauto.
  - apply orb_false_iff in H. destruct H as [Hr Ht].
    intros [E|E].
    + subst k. rewrite String.eqb_refl in Hr. discriminate.
    + exact (IH Ht E).
Qed.

Lemma without_key_keys (k : string) (tbl : list R) :
  ~ In k (map key (without_key key k tbl)).
Proof.
  unfold without_key. induction tbl as [|r tbl IH]; simpl.
  - tauto.
  - destruct (String.eqb (key r) k) eqn:E; simpl.
    + exact IH.
    + intros [F|F].
      * rewrite F, String.eqb_refl in E. discriminate.
      * exact (IH F).
Qed.

Lemma without_key_incl (k x : string) (tbl : list R) :
  In x (map key (without_key key k tbl)) -> In x (map key tbl).
Proof.
  unfold without_key. induction tbl as [|r tbl IH]; simpl.
  - tauto.
  - destruct (negb (String.eqb (key r) k)); simpl; tauto.
Qed.

Lemma without_key_NoDup (k : string) (tbl : list R) :
  NoDup (map key tbl) -> NoDup (map key (without_key key k tbl)).
Proof.
  induction tbl as [|r tbl IH]; simpl; intros H.
  - constructor.
  - inversion H as [|x l Hx Hl]; subst.
    destruct (negb (String.eqb (key r) k)); simpl.
    + constructor.
      * intros F. apply Hx. exact (without_key_incl _ _ _ F).
      * exact (IH Hl).
    + exact (IH Hl).
Qed.

Lemma without_key_absent (k : string) (tbl : list R) :
  ~ In k (map key tbl) -> without_key key k tbl = tbl.
Proof.
  unfold without_key. induction tbl as [|r tbl IH]; simpl; intros H.
  - reflexivity.
  - destruct (String.eqb (key r) k) eqn:E; simpl.
    + apply String.eqb_eq in E. tauto.
    + f_equal. apply IH. tauto.
Qed.

Lemma NoDup_snoc (l : list string) (x : string) :
  NoDup l -> ~ In x l -> NoDup (l ++ [x]).
Proof.
  induction l as [|y l IH]; simpl; intros Hl Hx.
  - constructor; [simpl; tauto | constructor].
  - inversion Hl as [|z l' Hy Hl']; subst.
    constructor.
    + rewrite in_app_iff. simpl. intros [F|[F|[]]]; [tauto | subst; tauto].
    + apply IH; tauto.
Qed.

Lemma rows_with_absent (k : string) (tbl : list R) :
  ~ In k (map key tbl) -> rows_with key k tbl = [].
Proof.
  unfold rows_with. induction tbl as [|r tbl IH]; simpl; intros H.
  - reflexivity.
  - destruct (String.eqb (key r) k) eqn:E.
    + apply String.eqb_eq in E. tauto.
    + apply IH. tauto.
Qed.

Lemma rows_with_NoDup (k : string) (tbl : list R) :
  NoDup (map key tbl) -> (List.length (rows_with key k tbl) <= 1)%nat.
Proof.
  induction tbl as [|r tbl IH]; simpl; intros H.
  - lia.
  - inversion H as [|x l Hx Hl]; subst.
    destruct (String.eqb (key r) k) eqn:E; simpl.
    + apply String.eqb_eq in E. subst k.
      fold (rows_with key (key r) tbl). rewrite (rows_with_absent _ _ Hx). simpl. lia.
    + exact (IH Hl).
Qed.

(** [INSERT OR REPLACE] never raises, keeps the keys distinct, and leaves one
    row with the key of the new row: the new row. *)
Lemma replace_total (row : R) (tbl : list R) :
  sql_insert key Replace row tbl =
  Some (without_key key (key row) tbl ++ [row]).
Proof.
  unfold sql_insert. destruct (has_key key (key row) tbl) eqn:E.
  - reflexivity.
  - rewrite (without_key_absent _ _ (has_key_false _ _ E)). reflexivity.
Qed.

(** A plain [INSERT] of a key that is there raises. *)
Lemma abort_on_duplicate (row : R) (tbl : list R) :
  In (key row) (map key tbl) -> sql_insert key Abort row tbl = None.
Proof.
  intros H. unfold sql_insert.
  destruct (has_key key (key row) tbl) eqn:E; [reflexivity|].
  destruct (has_key_false _ _ E H).
Qed.

Lemma replace_NoDup (row : R) (tbl : list R) :
  NoDup (map key tbl) ->
  NoDup (map key (without_key key (key row) tbl ++ [row])).
Proof.
  intros H. rewrite map_app. simpl. apply NoDup_snoc.
  - exact (without_key_NoDup _ _ H).
  - apply without_key_keys.
Qed.

Lemma replace_rows_with (row : R) (tbl : list R) :
  rows_with key (key row) (without_key key (key row) tbl ++ [row]) = [row].
Proof.
  unfold rows_with. rewrite filter_app.
  fold (rows_with key (key row) (without_key key (key row) tbl)).
  rewrite (rows_with_absent _ _ (without_key_keys _ _)).
  simpl. rewrite String.eqb_refl. reflexivity.
Qed.

Lemma replace_twice (row : R) (tbl : list R) :
  without_key key (key row) (without_key key (key row) tbl ++ [row]) ++ [row] =
  without_key key (key row) tbl ++ [row].
Proof.
  f_equal. unfold without_key at 1. rewrite filter_app. simpl.
  rewrite String.eqb_refl. simpl. rewrite app_nil_r.
  apply (without_key_absent (key row)). apply without_key_keys.
Qed.

End TableFacts.

(** ** Properties kept by a computation *)

Lemma preserves_ret {A : Type} (I : State -> Prop) (a : A) : preserves I (ret a).
Proof. intros env st H. exact H. Qed.

Lemma preserves_raise {A : Type} (I : State -> Prop) (e : exn) :
  preserves I (@raise A e).
Proof. intros env st H. exact H. Qed.

Lemma preserves_bind {A B : Type} (I : State -> Prop) (c : M A) (k : A -> M B) :
  preserves I c -> (forall a, preserves I (k a)) -> preserves I (bind c k).
Proof.
  intros Hc Hk env st H. unfold bind.
  specialize (Hc env st H).
  destruct (c env st) as [[e|a] st']; simpl in *.
  - exact Hc.
  - apply Hk. exact Hc.
Qed.

Lemma preserves_lift {A : Type} (I : State -> Prop) (r : exn + A) :
  preserves I (lift r).
Proof. destruct r; [apply preserves_raise | apply preserves_ret]. Qed.

Lemma preserves_forget {A : Type} (I : State -> Prop) (c : M A) :
  preserves I c -> preserves I (forget c).
Proof.
  intros H. unfold forget. apply preserves_bind; [exact H|].
  intros a. apply preserves_ret.
Qed.

Section Stable.
Variable I : State -> Prop.
Hypothesis I_stable : stable I.

Lemma preserves_get_db : preserves I get_db.
Proof. intros env st H. exact H. Qed.

Lemma preserves_time_time : preserves I time_time.
Proof. intros env st H. simpl. apply (I_stable st); [reflexivity | exact H]. Qed.

Lemma preserves_int_of_float (f : float) : preserves I (int_of_float f).
Proof.
  unfold int_of_float. destruct (PyFloat.to_Z f);
    [apply preserves_ret | apply preserves_raise].
Qed.

Lemma preserves_time_int : preserves I time_int.
Proof.
  unfold time_int. apply preserves_bind.
  - apply preserves_time_time.
  - intros f. apply preserves_int_of_float.
Qed.

Lemma preserves_http_get (p : string) (ps : list (string * value)) :
  preserves I (http_get p ps).
Proof.
  intros env st H. unfold http_get.
  destruct (data_api env _ _); simpl; apply (I_stable st); auto.
Qed.

Lemma preserves_print (a : alert) : preserves I (print a).
Proof. intros env st H. simpl. apply (I_stable st); auto. Qed.

Lemma preserves_send_discord (a : alert) : preserves I (send_discord a).
Proof. intros env st H. simpl. apply (I_stable st); auto. Qed.

Lemma preserves_get_webhook : preserves I get_webhook.
Proof. intros env st H. exact H. Qed.

Lemma preserves_days_since (ts : option Z) : preserves I (days_since ts).
Proof.
  unfold days_since. destruct ts as [[|z|z]|]; try apply preserves_ret;
    (apply preserves_bind; [apply preserves_time_time|]; intros now;
     destruct (PyFloat.of_Z _); [apply preserves_ret | apply preserves_raise]).
Qed.

End Stable.

(** ** The dedup ledger *)

Lemma ledger_ok_stable : stable ledger_ok.
Proof. intros st st' E H. unfold ledger_ok in *. rewrite E. exact H. Qed.

Lemma preserves_modify_db (I : State -> Prop) (f : Db -> Db) :
  (forall st, I st -> I (with_db f st)) -> preserves I (modify_db f).
Proof. intros H env st Hst. simpl. apply H. exact Hst. Qed.

Lemma mark_trade_seen_run (t : Trade) (env : Env) (st : State) :
  db_mark_trade_seen t env st =
  (inr tt,
   with_db (set_seen_trades
              (without_key sr_tx_hash (tx_hash t) (seen_trades (db st)) ++ [seen_row_of t]))
           st).
Proof.
  unfold db_mark_trade_seen, bind, get_db.
  rewrite (replace_total sr_tx_hash). reflexivity.
Qed.

Lemma ledger_mark_trade_seen (t : Trade) : preserves ledger_ok (db_mark_trade_seen t).
Proof.
  intros env st H. rewrite mark_trade_seen_run. unfold ledger_ok in *. simpl.
  exact (replace_NoDup sr_tx_hash (seen_row_of t) _ H).
Qed.

Lemma ledger_seen_trade (tx : string) : preserves ledger_ok (db_seen_trade tx).
Proof. intros env st H. exact H. Qed.

Lemma ledger_get_wallet_cache (w : string) (a : Z) :
  preserves ledger_ok (db_get_wallet_cache w a).
Proof.
  unfold db_get_wallet_cache. apply preserves_bind; [apply preserves_get_db|].
  intros d. destruct (select_one _ _ _) as [row|]; [|apply preserves_ret].
  apply preserves_bind; [apply preserves_time_int, ledger_ok_stable|].
  intros now. destruct (cr_updated_at row); [|apply preserves_ret].
  destruct (_ <=? _); apply preserves_ret.
Qed.

Lemma ledger_set_wallet_cache (p : WalletProfile) :
  preserves ledger_ok (db_set_wallet_cache p).
Proof.
  unfold db_set_wallet_cache.
  apply preserves_bind; [apply preserves_time_int, ledger_ok_stable|]. intros now.
  apply preserves_bind; [apply preserves_get_db|]. intros d.
  destruct (sql_insert _ _ _ _); [|apply preserves_raise].
  apply preserves_modify_db. intros st H. exact H.
Qed.

Lemma ledger_add_wallet_hit (w : string) (ts : Z) :
  preserves ledger_ok (db_add_wallet_hit w ts).
Proof. apply preserves_modify_db. intros st H. exact H. Qed.

Lemma ledger_count_wallet_hits (w : string) (ts : Z) :
  preserves ledger_ok (db_count_wallet_hits w ts).
Proof. intros env st H. exact H. Qed.

Section LedgerPipeline.
Context {RT : PyRuntime}.

Lemma ledger_get_wallet_profile (w : string) :
  preserves ledger_ok (get_wallet_profile w).
Proof.
  unfold get_wallet_profile.
  apply preserves_bind; [apply ledger_get_wallet_cache|].
  intros [p|]; [apply preserves_ret|].
  apply preserves_bind.
  { unfold fetch_traded_markets_count. apply preserves_bind;
      [apply preserves_http_get, ledger_ok_stable | intros; apply preserves_ret]. }
  intros traded. apply preserves_bind.
  { unfold fetch_wallet_first_seen_ts. apply preserves_bind;
      [apply preserves_http_get, ledger_ok_stable | intros; apply preserves_lift]. }
  intros first_seen. apply preserves_bind.
  { unfold fetch_wallet_recent_cash_24h.
    apply preserves_bind; [apply preserves_time_int, ledger_ok_stable|]. intros now.
    apply preserves_bind;
      [apply preserves_http_get, ledger_ok_stable | intros; apply preserves_lift]. }
  intros recent. apply preserves_bind; [apply ledger_set_wallet_cache|].
  intros _. apply preserves_ret.
Qed.

Lemma ledger_process_trade (t : Trade) : preserves ledger_ok (process_trade t).
Proof.
  unfold process_trade.
  destruct (_ || _); [apply preserves_ret|].
  destruct (negb _); [apply preserves_ret|].
  apply preserves_bind; [apply ledger_seen_trade|].
  intros [|]; [apply preserves_ret|].
  apply preserves_bind.
  { unfold record_and_count_hits.
    apply preserves_bind; [apply ledger_add_wallet_hit|]. intros _.
    apply preserves_bind; [apply preserves_time_int, ledger_ok_stable|]. intros now.
    apply ledger_count_wallet_hits. }
  intros hits. apply preserves_bind; [apply ledger_get_wallet_profile|].
  intros profile. apply preserves_bind.
  { unfold score_trade. apply preserves_bind;
      [apply preserves_days_since, ledger_ok_stable | intros; apply preserves_ret]. }
  intros [score reasons]. apply preserves_bind; [|intros _; apply ledger_mark_trade_seen].
  destruct (_ <=? _); [|apply preserves_ret].
  apply preserves_bind.
  { unfold format_alert. apply preserves_bind;
      [apply preserves_days_since, ledger_ok_stable | intros; apply preserves_ret]. }
  intros msg. apply preserves_bind; [apply preserves_print, ledger_ok_stable|].
  intros _. apply preserves_bind; [apply preserves_get_webhook|].
  intros [hook|]; [apply preserves_send_discord, ledger_ok_stable | apply preserves_ret].
Qed.

Lemma ledger_run_call (c : call) : preserves ledger_ok (run_call c).
Proof.
  destruct c; simpl.
  - apply preserves_forget, ledger_seen_trade.
  - apply ledger_mark_trade_seen.
  - apply preserves_forget, ledger_get_wallet_cache.
  - apply ledger_set_wallet_cache.
  - apply ledger_add_wallet_hit.
  - apply preserves_forget, ledger_count_wallet_hits.
  - apply preserves_forget, ledger_get_wallet_profile.
  - apply ledger_process_trade.
Qed.

Lemma ledger_run_calls (env : Env) (cs : list call) (st : State) :
  ledger_ok st -> ledger_ok (run_calls env cs st).
Proof.
  unfold run_calls. revert st.
  induction cs as [|c cs IH]; simpl; intros st H.
  - exact H.
  - apply IH. apply ledger_run_call. exact H.
Qed.

(** C4. Starting from a new database file, after any series of calls of the
    database functions, the profile lookup and the loop body (returned or
    raised), no transaction hash is in more than one row of [seen_trades];
    there, [db_mark_trade_seen] returns without raising and leaves exactly one
    row for the trade's hash, and a second call with the same trade returns as
    well and leaves the state as the first call left it. *)
Theorem seen_trades_at_most_once (env : Env) (cs : list call) (t : Trade) :
  let st := run_calls env cs (boot None) in
  (forall tx, (seen_count tx (db st) <= 1)%nat) /\
  (exists st1,
     db_mark_trade_seen t env st = (inr tt, st1) /\
     rows_with sr_tx_hash (tx_hash t) (seen_trades (db st1)) = [seen_row_of t] /\
     seen_count (tx_hash t) (db st1) = 1%nat /\
     (forall tx, (seen_count tx (db st1) <= 1)%nat) /\
     db_mark_trade_seen t env st1 = (inr tt, st1)).
Proof.
  intros st.
  assert (Hst : ledger_ok st).
  { apply ledger_run_calls. constructor. }
  split.
  - intros tx. apply (rows_with_NoDup sr_tx_hash). exact Hst.
  - eexists. split; [apply mark_trade_seen_run|].
    assert (Hrows : rows_with sr_tx_hash (tx_hash t)
              (without_key sr_tx_hash (tx_hash t) (seen_trades (db st)) ++ [seen_row_of t])
            = [seen_row_of t]).
    { exact (replace_rows_with sr_tx_hash (seen_row_of t) _). }
    repeat split.
    + exact Hrows.
    + unfold seen_count. simpl. rewrite Hrows. reflexivity.
    + intros tx. apply (rows_with_NoDup sr_tx_hash). simpl.
      exact (replace_NoDup sr_tx_hash (seen_row_of t) _ Hst).
    + rewrite mark_trade_seen_run. simpl. unfold with_db, set_seen_trades. simpl.
      rewrite (replace_twice sr_tx_hash (seen_row_of t)). reflexivity.
Qed.

End LedgerPipeline.

(** ** The cluster tracker *)

Lemma count_hits_nonneg (hits : list hit_row) (w : string) (t : Z) :
  0 <= count_hits hits w t.
Proof. unfold count_hits. lia. Qed.

Lemma count_hits_cons (h : hit_row) (hits : list hit_row) (w : string) (t : Z) :
  count_hits (h :: hits) w t =
  (if String.eqb (hr_wallet h) w && (t <=? hr_hit_ts h) then 1 else 0)
  + count_hits hits w t.
Proof.
  unfold count_hits. cbn [filter].
  destruct (String.eqb (hr_wallet h) w && (t <=? hr_hit_ts h)); cbn [List.length]; lia.
Qed.

Lemma count_hits_app (l1 l2 : list hit_row) (w : string) (t : Z) :
  count_hits (l1 ++ l2) w t = count_hits l1 w t + count_hits l2 w t.
Proof.
  unfold count_hits. rewrite filter_app, length_app. lia.
Qed.

Lemma count_hits_antitone (hits : list hit_row) (w : string) (t0 t1 : Z) :
  t0 <= t1 -> count_hits hits w t1 <= count_hits hits w t0.
Proof.
  intros Ht. induction hits as [|h hits IH].
  - reflexivity.
  - rewrite !count_hits_cons.
    destruct (String.eqb (hr_wallet h) w); simpl; [|lia].
    destruct (Z.leb_spec t1 (hr_hit_ts h)); destruct (Z.leb_spec t0 (hr_hit_ts h)); lia.
Qed.

(** The hits of a wallet stamped exactly [t]. *)
Lemma count_hits_step (hits : list hit_row) (w : string) (t : Z) :
  count_hits hits w t =
  count_hits hits w (t + 1)
  + Z.of_nat (List.length
      (filter (fun h => String.eqb (hr_wallet h) w && (hr_hit_ts h =? t)) hits)).
Proof.
  induction hits as [|h hits IH].
  - reflexivity.
  - rewrite !count_hits_cons. simpl filter.
    destruct (String.eqb (hr_wallet h) w); simpl; [|lia].
    destruct (Z.leb_spec t (hr_hit_ts h)); destruct (Z.leb_spec (t + 1) (hr_hit_ts h));
      destruct (Z.eqb_spec (hr_hit_ts h) t); simpl List.length; lia.
Qed.

(** C6. [db_count_wallet_hits] returns the count without raising or changing
    the state; the count is never negative; a later window start never gives a
    larger count; and the bound is inclusive: the count from [t0] is the count
    from [t0 + 1] plus the number of the wallet's hits stamped exactly [t0]. *)
Theorem count_wallet_hits_monotone (env : Env) (st : State) (w : string) (t0 t1 : Z) :
  exists n0 n1 n0' : Z,
    db_count_wallet_hits w t0 env st = (inr n0, st) /\
    db_count_wallet_hits w t1 env st = (inr n1, st) /\
    db_count_wallet_hits w (t0 + 1) env st = (inr n0', st) /\
    0 <= n0 /\ 0 <= n1 /\
    (t0 <= t1 -> n1 <= n0) /\
    n0 = n0' + Z.of_nat (List.length
                 (filter (fun h => String.eqb (hr_wallet h) w && (hr_hit_ts h =? t0))
                         (wallet_hits (db st)))).
Proof.
  exists (count_hits (wallet_hits (db st)) w t0),
         (count_hits (wallet_hits (db st)) w t1),
         (count_hits (wallet_hits (db st)) w (t0 + 1)).
  repeat split.
  - apply count_hits_nonneg.
  - apply count_hits_nonneg.
  - apply count_hits_antitone.
  - apply count_hits_step.
Qed.

(** The monotonicity theorem on a database with hits at one minute and at two
    hours before [midnight]: the window from two hours back holds both (the
    bound is inclusive), the window from one hour back holds one. *)
Lemma count_wallet_hits_monotone_witness :
  exists n0 n1 : Z,
    db_count_wallet_hits "0xa11ce" (midnight - 7200) env_down two_hits_state
      = (inr n0, two_hits_state) /\
    db_count_wallet_hits "0xa11ce" (midnight - 3600) env_down two_hits_state
      = (inr n1, two_hits_state) /\
    n1 <= n0.
Proof.
  destruct (count_wallet_hits_monotone env_down two_hits_state "0xa11ce"
              (midnight - 7200) (midnight - 3600))
    as (n0 & n1 & n0' & H0 & H1 & _ & _ & _ & Hmono & _).
  exists n0, n1. split; [exact H0|]. split; [exact H1|].
  apply Hmono. vm_compute. discriminate.
Defined.

Lemma time_int_run (env : Env) (st : State) (now : Z) :
  PyFloat.to_Z (clock env (ticks st)) = Some now ->
  time_int env st = (inr now, tick st).
Proof.
  intros H. unfold time_int, bind, time_time, int_of_float.
  rewrite H. reflexivity.
Qed.

Lemma count_hits_no_wallet (hits : list hit_row) (w : string) (t : Z) :
  forallb (fun h => negb (String.eqb (hr_wallet h) w)) hits = true ->
  count_hits hits w t = 0.
Proof.
  induction hits as [|h hits IH]; intros H.
  - reflexivity.
  - simpl in H. apply andb_true_iff in H. destruct H as [Hh Hr].
    rewrite count_hits_cons, (IH Hr).
    apply negb_true_iff in Hh. rewrite Hh. reflexivity.
Qed.

Lemma record_and_count_hits_run (env : Env) (st : State) (t : Trade) (now : Z) :
  PyFloat.to_Z (clock env (ticks st)) = Some now ->
  record_and_count_hits t env st =
  (inr (count_hits (wallet_hits (db st)) (proxy_wallet t) (now - CLUSTER_MINUTES * 60)
        + (if now - CLUSTER_MINUTES * 60 <=? timestamp t then 1 else 0)),
   tick (with_db (add_hit (proxy_wallet t) (timestamp t)) st)).
Proof.
  intros H. unfold record_and_count_hits, bind, db_add_wallet_hit, modify_db.
  rewrite (time_int_run env (with_db _ st) now H).
  unfold db_count_wallet_hits, bind, get_db, ret. simpl.
  rewrite count_hits_app, count_hits_cons. simpl.
  rewrite String.eqb_refl. simpl.
  destruct (_ <=? _); f_equal; f_equal; unfold count_hits; simpl; lia.
Qed.

(** C3, as the code has it. The loop body appends the hit, stamped with the
    trade's own timestamp, before it counts; the count asks for the wallet's
    hits stamped at or after [int(time.time()) - CLUSTER_MINUTES * 60], with no
    upper bound. So the count is the count before the trade, plus one exactly
    when the trade's timestamp is inside that window; for a wallet with no
    earlier hit it is 1 when the timestamp is inside the window and 0 when it
    is older. *)
Theorem hit_recorded_before_count (env : Env) (st : State) (t : Trade) (now : Z) :
  PyFloat.to_Z (clock env (ticks st)) = Some now ->
  let window_start := now - CLUSTER_MINUTES * 60 in
  exists (before n : Z) (st' : State),
    db_count_wallet_hits (proxy_wallet t) window_start env st = (inr before, st) /\
    record_and_count_hits t env st = (inr n, st') /\
    wallet_hits (db st') =
      wallet_hits (db st) ++
      [{| hr_id := next_hit_id (db st); hr_wallet := proxy_wallet t;
          hr_hit_ts := timestamp t |}] /\
    db_count_wallet_hits (proxy_wallet t) window_start env st' = (inr n, st') /\
    n = before + (if window_start <=? timestamp t then 1 else 0) /\
    (forallb (fun h => negb (String.eqb (hr_wallet h) (proxy_wallet t)))
             (wallet_hits (db st)) = true ->
     n = if window_start <=? timestamp t then 1 else 0).
Proof.
  intros H window_start.
  pose proof (record_and_count_hits_run env st t now H) as Hrun.
  fold window_start in Hrun.
  eexists _, _, _. split; [reflexivity|]. split; [exact Hrun|].
  split; [reflexivity|]. split.
  - unfold db_count_wallet_hits, bind, get_db, ret. simpl.
    rewrite count_hits_app, count_hits_cons. simpl.
    rewrite String.eqb_refl. simpl.
    destruct (_ <=? _); f_equal; f_equal; unfold count_hits; simpl; lia.
  - split; [reflexivity|].
    intros Hnone. rewrite (count_hits_no_wallet _ _ _ Hnone). reflexivity.
Qed.

(** The theorem at a trade one minute old, on a new database: the count is 1. *)
Lemma hit_recorded_before_count_witness :
  exists st', record_and_count_hits recent_trade env_down (boot None) = (inr 1, st').
Proof.
  destruct (hit_recorded_before_count env_down (boot None) recent_trade midnight eq_refl)
    as (before & n & st' & _ & Hrun & _ & _ & _ & Hfirst).
  exists st'. rewrite Hrun. rewrite (Hfirst eq_refl). reflexivity.
Defined.

(** C3, as stated, fails: the first trade of a wallet, stamped 28 hours before
    it is processed, is recorded and then counted 0 times. *)
Lemma old_trade_counts_zero :
  fst (record_and_count_hits old_trade env_down (boot None)) = inr 0 /\
  List.length (wallet_hits (db (snd (record_and_count_hits old_trade env_down (boot None))))) = 1%nat /\
  dropped (RT := plain_runtime) old_trade = false /\
  fst (db_seen_trade (tx_hash old_trade) env_down (boot None)) = inr false.
Proof. vm_compute. repeat split. Qed.

(** ** Filtering *)

Section Filtering.
Context {RT : PyRuntime}.

Lemma is_empty_true (s : string) : is_empty s = true <-> s = "".
Proof. destruct s; simpl; split; congruence. Qed.

Lemma dropped_true (t : Trade) :
  dropped t = true <->
  tx_hash t = "" \/ proxy_wallet t = "" \/ title_allowed (title t) = false.
Proof.
  unfold dropped. rewrite !orb_true_iff, !is_empty_true, negb_true_iff. tauto.
Qed.

Lemma process_trade_dropped (t : Trade) (env : Env) (st : State) :
  dropped t = true -> process_trade t env st = (inr tt, st).
Proof.
  unfold dropped, process_trade. intros H.
  destruct (is_empty (tx_hash t) || is_empty (proxy_wallet t)); [reflexivity|].
  simpl in H. rewrite H. reflexivity.
Qed.

(** C8. A trade with an empty transaction hash, an empty wallet, or a title
    the keyword policy refuses is passed over by the loop body: it returns at
    once and the whole state is as before (nothing is added to [seen_trades],
    [wallet_hits] or [wallet_cache], the clock is not read, nothing is
    requested, nothing is printed or posted); the rest of the batch is
    processed as if the trade were not in it. *)
Theorem dropped_trade_changes_nothing (env : Env) (st : State) (t : Trade)
    (rest : list Trade) :
  tx_hash t = "" \/ proxy_wallet t = "" \/ title_allowed (title t) = false ->
  process_trade t env st = (inr tt, st) /\
  seen_trades (db (snd (process_trade t env st))) = seen_trades (db st) /\
  process_trades (t :: rest) env st = process_trades rest env st.
Proof.
  intros H. apply dropped_true in H.
  pose proof (process_trade_dropped t env st H) as E.
  split; [exact E|]. split.
  - rewrite E. reflexivity.
  - simpl. unfold bind. rewrite E. reflexivity.
Qed.

End Filtering.

(** The theorem at a trade on a sports market. *)
Lemma dropped_trade_changes_nothing_witness :
  process_trade (RT := plain_runtime) sports_trade env_down (boot None)
  = (inr tt, boot None).
Proof.
  apply (dropped_trade_changes_nothing (RT := plain_runtime) env_down (boot None)
           sports_trade []).
  right. right. vm_compute. reflexivity.
Defined.

(** ** Estimated cash *)

Lemma round_not_negative (m e : Z) (l : location) :
  negative (binary_round_aux PyFloat.prec PyFloat.emax false m e l) = false.
Proof.
  unfold binary_round_aux.
  destruct (shr_fexp _ _ _ _ _) as [mrs' e'].
  destruct (shr_fexp _ _ _ _ _) as [mrs'' e''].
  destruct (shr_m mrs''); [reflexivity | | reflexivity].
  destruct (Z.leb _ _); reflexivity.
Qed.

Lemma mul_not_negative (x y : float) :
  negative x = false -> negative y = false -> negative (PyFloat.mul x y) = false.
Proof.
  unfold PyFloat.mul.
  destruct x as [sx|sx| |sx mx ex]; destruct y as [sy|sy| |sy my ey];
    try destruct sx; try destruct sy; simpl; intros Hx Hy;
    try discriminate; try reflexivity.
  apply round_not_negative.
Qed.

Section EstCashFacts.
Context {RT : PyRuntime}.

(** C9, as the code has it. [est_cash] is the binary64 product of [float(size)]
    and [float(price)]; it is [0.0], and nothing is raised, when either
    conversion fails; it is not below zero when neither factor is. *)
Theorem est_cash_product (t : Trade) :
  (forall s p, py_float (size t) = Some s -> py_float (price t) = Some p ->
     est_cash t = PyFloat.mul s p /\
     (negative s = false -> negative p = false -> negative (est_cash t) = false)) /\
  (py_float (size t) = None \/ py_float (price t) = None ->
     est_cash t = PyFloat.zero).
Proof.
  unfold est_cash. split.
  - intros s p Hs Hp. rewrite Hs, Hp. split; [reflexivity|].
    apply mul_not_negative.
  - intros [H|H]; rewrite H; [reflexivity|].
    destruct (py_float (size t)); reflexivity.
Qed.

End EstCashFacts.

(** The theorem at the example trade (1000 at 20) and at a trade whose size is
    [None]. *)
Lemma est_cash_product_witness :
  est_cash (RT := plain_runtime) recent_trade = PyFloat.lit 20000 /\
  negative (est_cash (RT := plain_runtime) recent_trade) = false /\
  est_cash (RT := plain_runtime) malformed_size_trade = PyFloat.zero.
Proof.
  destruct (est_cash_product (RT := plain_runtime) recent_trade) as [Hprod _].
  destruct (Hprod (PyFloat.lit 1000) (PyFloat.lit 20) eq_refl eq_refl) as [Heq Hsign].
  destruct (est_cash_product (RT := plain_runtime) malformed_size_trade) as [_ Hbad].
  split; [rewrite Heq; reflexivity|].
  split; [apply Hsign; reflexivity|].
  apply Hbad. left. reflexivity.
Defined.

(** C9, as stated, fails: a size of -1000 at a price of 20 gives an estimated
    cash of -20000, which is below zero. *)
Lemma est_cash_can_be_negative :
  est_cash (RT := plain_runtime) negative_size_trade = PyFloat.lit (-20000) /\
  PyFloat.ltb (est_cash (RT := plain_runtime) negative_size_trade) PyFloat.zero = true.
Proof. split; reflexivity. Qed.

(** ** Scoring *)

Lemma total_weight_snoc (rs : list reason) (r : reason) :
  total_weight (rs ++ [r]) = total_weight rs + weight_of r.
Proof.
  unfold total_weight. induction rs as [|x rs IH]; simpl.
  - lia.
  - rewrite IH. lia.
Qed.

Lemma weight_of_pos (r : reason) : 0 < weight_of r.
Proof. destruct r; reflexivity. Qed.

Lemma total_weight_nonneg (rs : list reason) : 0 <= total_weight rs.
Proof.
  induction rs as [|r rs IH]; simpl.
  - lia.
  - pose proof (weight_of_pos r). lia.
Qed.

Lemma total_weight_zero (rs : list reason) : total_weight rs = 0 <-> rs = [].
Proof.
  destruct rs as [|r rs]; simpl; split; intros H; try reflexivity; try discriminate.
  pose proof (weight_of_pos r). pose proof (total_weight_nonneg rs). lia.
Qed.

Lemma rule_balanced (cond : bool) (r : reason) (acc : Z * list reason) :
  balanced acc -> balanced (rule cond (weight_of r) r acc).
Proof.
  unfold balanced, rule. intros H. destruct cond; simpl.
  - rewrite total_weight_snoc, H. reflexivity.
  - exact H.
Qed.

Section Scoring.
Context {RT : PyRuntime}.

Lemma score_rules_balanced (age : option float) (t : Trade) (p : WalletProfile) (hits : Z) :
  balanced (score_rules age t p hits).
Proof.
  unfold score_rules.
  apply (rule_balanced _ (cluster hits)).
  apply (rule_balanced _ very_big_trade).
  apply (rule_balanced _ (big_trade (est_cash t))).
  assert (H0 : balanced (0, [])) by reflexivity.
  assert (H1 : balanced
            match age with
            | Some a => rule (PyFloat.leb a (PyFloat.lit FRESH_DAYS)) W_FRESH (fresh_wallet a) (0, [])
            | None => (0, [])
            end).
  { destruct age as [a|]; [apply (rule_balanced _ (fresh_wallet a)) |]; exact H0. }
  destruct (traded_markets p) as [n|]; [apply (rule_balanced _ (low_activity n)) |]; exact H1.
Qed.

Lemma days_since_run (ts : option Z) (env : Env) (st : State) :
  days_since ts env st =
  match ts with
  | None | Some 0 => (inr None, st)
  | Some z =>
      match PyFloat.of_Z z with
      | Some tsf =>
          (inr (Some (PyFloat.div (PyFloat.sub (clock env (ticks st)) tsf) (PyFloat.lit 86400))),
           tick st)
      | None => (inl OverflowError, tick st)
      end
  end.
Proof.
  unfold days_since. destruct ts as [[|z|z]|]; try reflexivity;
    unfold bind, time_time; destruct (PyFloat.of_Z _); reflexivity.
Qed.

(** C10. [score_trade] returns unless [first_seen_ts] is an integer too large
    to become a float (the subtraction in [days_since] then raises
    [OverflowError]). When it returns, the score is the sum of the weights of
    the reasons, one reason per rule that fired; it is never negative, and it
    is 0 exactly when there is no reason. *)
Theorem score_zero_iff_no_reasons (env : Env) (st : State) (t : Trade)
    (p : WalletProfile) (cluster_hits : Z) :
  match fst (score_trade t p cluster_hits env st) with
  | inr (score, reasons) =>
      score = total_weight reasons /\ 0 <= score /\ (score = 0 <-> reasons = [])
  | inl e =>
      e = OverflowError /\
      exists ts, first_seen_ts p = Some ts /\ PyFloat.of_Z ts = None
  end.
Proof.
  unfold score_trade, bind. rewrite days_since_run.
  assert (Hok : forall age,
            match score_rules age t p cluster_hits with
            | (score, reasons) =>
                score = total_weight reasons /\ 0 <= score /\ (score = 0 <-> reasons = [])
            end).
  { intros age. pose proof (score_rules_balanced age t p cluster_hits) as Hb.
    destruct (score_rules age t p cluster_hits) as [score reasons].
    unfold balanced in Hb. simpl in Hb. subst score.
    split; [reflexivity|]. split; [apply total_weight_nonneg | apply total_weight_zero]. }
  destruct (first_seen_ts p) as [[|z|z]|]; simpl; try apply Hok;
    destruct (PyFloat.of_Z _) eqn:E; simpl; try apply Hok;
    (split; [reflexivity | eexists; split; [reflexivity | exact E]]).
Qed.

End Scoring.

Section ScoringRuns.
Context {RT : PyRuntime}.

Lemma score_trade_run (t : Trade) (p : WalletProfile) (hits : Z) (env : Env) (st : State) :
  score_trade t p hits env st =
  match days_since (first_seen_ts p) env st with
  | (inr age, st') => (inr (score_rules age t p hits), st')
  | (inl e, st') => (inl e, st')
  end.
Proof. reflexivity. Qed.

(** C1, as the code has it. [score_trade] sends no request, prints and posts
    nothing and leaves the database as it is; it reads the clock (once, in
    [days_since]) when [first_seen_ts] is known and not 0. Its result is fixed
    by the trade, the profile, the cluster count and that reading of the clock:
    two calls with the same three arguments that read the same time return the
    same score and the same reasons, and when [first_seen_ts] is [None] or 0
    the result does not depend on the time either. *)
Theorem score_trade_reads_only_the_clock (env1 env2 : Env) (st1 st2 : State)
    (t : Trade) (p : WalletProfile) (cluster_hits : Z) :
  (clock env1 (ticks st1) = clock env2 (ticks st2) ->
   fst (score_trade t p cluster_hits env1 st1) =
   fst (score_trade t p cluster_hits env2 st2)) /\
  (first_seen_ts p = None \/ first_seen_ts p = Some 0 ->
   fst (score_trade t p cluster_hits env1 st1) =
   fst (score_trade t p cluster_hits env2 st2) /\
   snd (score_trade t p cluster_hits env1 st1) = st1) /\
  db (snd (score_trade t p cluster_hits env1 st1)) = db st1 /\
  requests (snd (score_trade t p cluster_hits env1 st1)) = requests st1 /\
  console (snd (score_trade t p cluster_hits env1 st1)) = console st1 /\
  discord (snd (score_trade t p cluster_hits env1 st1)) = discord st1 /\
  (ticks (snd (score_trade t p cluster_hits env1 st1)) <= S (ticks st1))%nat.
Proof.
  rewrite !score_trade_run, !days_since_run.
  split; [|split].
  - intros Hclock. rewrite Hclock.
    destruct (first_seen_ts p) as [[|z|z]|]; try reflexivity;
      destruct (PyFloat.of_Z _); reflexivity.
  - intros [H|H]; rewrite H; split; reflexivity.
  - destruct (first_seen_ts p) as [[|z|z]|]; simpl;
      try destruct (PyFloat.of_Z _); simpl; repeat split; lia.
Qed.

(** C7. With the constants of the source (fresh 3 at 14 days, low activity 2 at
    6 markets, big trade 2 at 10000, one more at 25000, cluster 2 at 2 hits,
    alert at 6): a trade of size 1000 at price 20 has an estimated cash of
    20000; for a wallet with 3 markets traded, first seen five days before the
    time the clock reads, and with 2 cluster hits, [score_trade] returns the
    score 9 with the reasons fresh wallet, low activity, big trade, cluster in
    this order and without [very_big_trade]; 9 reaches the alert threshold. *)
Theorem example_scenario_scores_9 (env : Env) (st : State)
    (w sd cid ttl sl oc tx : string) (stamp : Z) (recent : option float) :
  clock env (ticks st) = PyFloat.lit midnight ->
  let t := {| proxy_wallet := w; side := sd; condition_id := cid;
              size := VFloat (PyFloat.lit 1000); price := VFloat (PyFloat.lit 20);
              timestamp := stamp; title := ttl; slug := sl; outcome := oc;
              tx_hash := tx |} in
  let p := {| wallet := w; traded_markets := Some 3;
              first_seen_ts := Some (midnight - 5 * 86400);
              recent_cash_24h := recent |} in
  est_cash t = PyFloat.lit 20000 /\
  PyFloat.leb (PyFloat.lit BIG_TRADE_TIER_2) (est_cash t) = false /\
  score_trade t p 2 env st =
    (inr (9, [fresh_wallet (PyFloat.lit 5); low_activity 3;
              big_trade (PyFloat.lit 20000); cluster 2]),
     tick st) /\
  9 = W_FRESH + W_LOW_ACTIVITY + W_BIG_TRADE + W_CLUSTER /\
  (ALERT_SCORE_THRESHOLD <=? 9) = true.
Proof.
  intros Hclock t p.
  assert (Hcash : est_cash t = PyFloat.lit 20000) by reflexivity.
  split; [exact Hcash|]. split; [rewrite Hcash; reflexivity|].
  split; [|split; reflexivity].
  rewrite score_trade_run, days_since_run. simpl first_seen_ts.
  rewrite Hclock.
  change (midnight - 5 * 86400) with 1761868800.
  change (PyFloat.of_Z 1761868800) with (Some (PyFloat.lit 1761868800)).
  cbv iota beta.
  change (PyFloat.div (PyFloat.sub (PyFloat.lit midnight) (PyFloat.lit 1761868800))
            (PyFloat.lit 86400)) with (PyFloat.lit 5).
  unfold score_rules. rewrite Hcash. reflexivity.
Qed.

End ScoringRuns.

(** The theorem at the example trade and profile, on a clock that reads
    [midnight]. *)
Lemma example_scenario_scores_9_witness :
  fst (score_trade (RT := plain_runtime) recent_trade scenario_profile 2 env_down (boot None))
  = inr (9, [fresh_wallet (PyFloat.lit 5); low_activity 3;
             big_trade (PyFloat.lit 20000); cluster 2]).
Proof.
  destruct (example_scenario_scores_9 (RT := plain_runtime) env_down (boot None)
              "0xa11ce" "BUY" "0xc0" "Will it rain tomorrow?" "rain-tomorrow" "Yes" "0x02"
              (midnight - 60) None eq_refl) as (_ & _ & Hscore & _).
  unfold recent_trade, scenario_profile. rewrite Hscore. reflexivity.
Defined.

(** The amended C1 at two runs that read the same time, in different worlds. *)
Lemma score_trade_reads_only_the_clock_witness :
  fst (score_trade (RT := plain_runtime) recent_trade scenario_profile 0 env_down (boot None)) =
  fst (score_trade (RT := plain_runtime) recent_trade scenario_profile 0
         {| clock := ticking_clock; data_api := fun _ _ => Returns VNone; webhook := Some "hook" |}
         (boot None)).
Proof.
  destruct (score_trade_reads_only_the_clock (RT := plain_runtime)
              env_down
              {| clock := ticking_clock; data_api := fun _ _ => Returns VNone;
                 webhook := Some "hook" |}
              (boot None) (boot None) recent_trade scenario_profile 0) as [Hsame _].
  apply Hsame. reflexivity.
Defined.

(** C1, as stated, fails: the same trade, profile and cluster count score 7 on
    one day and 4 thirty days later, when the wallet is no longer fresh. *)
Lemma score_trade_depends_on_the_time :
  fst (score_trade (RT := plain_runtime) recent_trade scenario_profile 0 env_down (boot None))
  = inr (7, [fresh_wallet (PyFloat.lit 5); low_activity 3; big_trade (PyFloat.lit 20000)]) /\
  fst (score_trade (RT := plain_runtime) recent_trade scenario_profile 0 env_later (boot None))
  = inr (4, [low_activity 3; big_trade (PyFloat.lit 20000)]).
Proof. split; vm_compute; reflexivity. Qed.

(** ** The profile cache *)

Lemma get_wallet_cache_run (w : string) (a : Z) (env : Env) (st : State) :
  db_get_wallet_cache w a env st =
  match select_one cr_wallet w (wallet_cache (db st)) with
  | None => (inr None, st)
  | Some row =>
      match PyFloat.to_Z (clock env (ticks st)) with
      | Some now =>
          (inr match cr_updated_at row with
               | Some updated_at =>
                   if now - updated_at <=? a then Some (profile_of_row w row) else None
               | None => None
               end,
           tick st)
      | None =>
          (inl match clock env (ticks st) with
               | S754_nan => ValueError
               | _ => OverflowError
               end,
           tick st)
      end
  end.
Proof.
  unfold db_get_wallet_cache, bind, get_db.
  destruct (select_one _ _ _) as [row|]; [|reflexivity].
  unfold time_int, bind, time_time, int_of_float.
  destruct (PyFloat.to_Z _); [|reflexivity].
  unfold ret. cbv beta iota.
  destruct (cr_updated_at row); [|reflexivity].
  destruct (_ <=? _); reflexivity.
Qed.

Lemma set_wallet_cache_run (p : WalletProfile) (env : Env) (st : State) (now : Z) :
  PyFloat.to_Z (clock env (ticks st)) = Some now ->
  db_set_wallet_cache p env st =
  (inr tt, with_db (set_wallet_cache (cache_after p now (wallet_cache (db st)))) (tick st)).
Proof.
  intros H. unfold db_set_wallet_cache, bind.
  rewrite (time_int_run env st now H). unfold get_db.
  rewrite (replace_total cr_wallet). reflexivity.
Qed.

Lemma length_snoc {A : Type} (l : list A) (x : A) :
  List.length (l ++ [x]) = S (List.length l).
Proof. rewrite length_app. simpl. lia. Qed.

Lemma http_get_run (p : string) (ps : list (string * value)) (env : Env) (st : State) :
  http_get p ps env st =
  match data_api env (List.length (requests st)) {| path := p; params := ps |} with
  | Raises e => (inl e, sent {| path := p; params := ps |} st)
  | Returns v => (inr v, sent {| path := p; params := ps |} st)
  end.
Proof. reflexivity. Qed.


(** Projections of a state after one step. *)
Lemma ticks_sent (r : request) (st : State) : ticks (sent r st) = ticks st.
Proof. reflexivity. Qed.

Lemma ticks_tick (st : State) : ticks (tick st) = S (ticks st).
Proof. reflexivity. Qed.

Lemma requests_sent (r : request) (st : State) : requests (sent r st) = requests st ++ [r].
Proof. reflexivity. Qed.

Lemma requests_tick (st : State) : requests (tick st) = requests st.
Proof. reflexivity. Qed.

Lemma db_sent (r : request) (st : State) : db (sent r st) = db st.
Proof. reflexivity. Qed.

Lemma db_tick (st : State) : db (tick st) = db st.
Proof. reflexivity. Qed.

Create Rewrite HintDb state.
#[local] Hint Rewrite ticks_sent ticks_tick requests_sent requests_tick db_sent db_tick
  @length_snoc : state.

Lemma time_int_raises (env : Env) (st : State) :
  PyFloat.to_Z (clock env (ticks st)) = None ->
  time_int env st =
  (inl match clock env (ticks st) with
       | S754_nan => ValueError
       | _ => OverflowError
       end, tick st).
Proof.
  intros H. unfold time_int, bind, time_time, int_of_float.
  rewrite H. reflexivity.
Qed.

Section Refresh.
Context {RT : PyRuntime}.

Lemma refresh_run (w : string) (env : Env) (st st0 : State) :
  db_get_wallet_cache w DEFAULT_MAX_AGE env st = (inr None, st0) ->
  get_wallet_profile w env st =
  let n := List.length (requests st0) in
  let st1 := sent (traded_request w) st0 in
  match data_api env n (traded_request w) with
  | Raises e => (inl e, st1)
  | Returns v1 =>
      let st2 := sent (first_seen_request w) st1 in
      match data_api env (S n) (first_seen_request w) with
      | Raises e => (inl e, st2)
      | Returns v2 =>
          match first_seen_of v2 with
          | inl e => (inl e, st2)
          | inr fs =>
              match PyFloat.to_Z (clock env (ticks st0)) with
              | None => (inl match clock env (ticks st0) with
                             | S754_nan => ValueError
                             | _ => OverflowError
                             end, tick st2)
              | Some now1 =>
                  let st3 := sent (recent_cash_request w now1) (tick st2) in
                  match data_api env (S (S n)) (recent_cash_request w now1) with
                  | Raises e => (inl e, st3)
                  | Returns v3 =>
                      match recent_cash_of v3 with
                      | inl e => (inl e, st3)
                      | inr rc =>
                          let p := {| wallet := w; traded_markets := traded_of v1;
                                      first_seen_ts := fs; recent_cash_24h := rc |} in
                          match PyFloat.to_Z (clock env (S (ticks st0))) with
                          | None => (inl match clock env (S (ticks st0)) with
                                         | S754_nan => ValueError
                                         | _ => OverflowError
                                         end, tick st3)
                          | Some now2 =>
                              (inr p,
                               with_db (set_wallet_cache
                                          (cache_after p now2 (wallet_cache (db st0))))
                                       (tick st3))
                          end
                      end
                  end
              end
          end
      end
  end.
Proof.
  intros Hmiss. cbv zeta.
  unfold get_wallet_profile, bind. rewrite Hmiss.
  unfold fetch_traded_markets_count, bind. rewrite http_get_run.
  fold (traded_request w).
  destruct (data_api env _ (traded_request w)) as [e|v1]; [reflexivity|].
  unfold ret at 1. cbv beta iota.
  unfold fetch_wallet_first_seen_ts, bind. rewrite http_get_run.
  fold (first_seen_request w). autorewrite with state.
  destruct (data_api env _ (first_seen_request w)) as [e|v2]; [reflexivity|].
  destruct (first_seen_of v2) as [e|fs]; [reflexivity|].
  unfold lift, ret at 1. cbv beta iota.
  unfold fetch_wallet_recent_cash_24h, bind, time_int, bind, time_time, int_of_float.
  autorewrite with state.
  destruct (PyFloat.to_Z (clock env (ticks st0))) as [now1|]; [|reflexivity].
  unfold ret at 1. cbv beta iota zeta.
  rewrite http_get_run. fold (recent_cash_request w now1).
  autorewrite with state.
  destruct (data_api env _ (recent_cash_request w now1)) as [e|v3]; [reflexivity|].
  destruct (recent_cash_of v3) as [e|rc]; [reflexivity|].
  unfold lift, ret at 1. cbv beta iota.
  destruct (PyFloat.to_Z (clock env (S (ticks st0)))) as [now2|] eqn:E2.
  - match goal with
    | |- context [db_set_wallet_cache ?p env ?s] =>
        rewrite (set_wallet_cache_run p env s now2 E2)
    end.
    reflexivity.
  - unfold db_set_wallet_cache, bind.
    match goal with
    | |- context [time_int env ?s] => rewrite (time_int_raises env s E2)
    end.
    reflexivity.
Qed.
Lemma get_wallet_cache_frame (w : string) (a : Z) (env : Env) (st : State) :
  db (snd (db_get_wallet_cache w a env st)) = db st /\
  requests (snd (db_get_wallet_cache w a env st)) = requests st.
Proof.
  rewrite get_wallet_cache_run.
  destruct (select_one _ _ _); [|split; reflexivity].
  destruct (PyFloat.to_Z _); split; reflexivity.
Qed.

(** C2, as the code has it. On a refresh the three fetches run in order. A
    fetch whose request raises ends [get_wallet_profile] with that exception:
    the later fetches are not attempted and nothing is written to the cache. A
    body from which an attribute cannot be read does no harm: when the three
    requests return, each attribute is read from its own body, [None] when it
    is absent there, and the profile is cached as read. *)
Theorem refresh_tolerates_absence_not_failure (w : string) (env : Env) (st st0 : State) :
  db_get_wallet_cache w DEFAULT_MAX_AGE env st = (inr None, st0) ->
  let n := List.length (requests st0) in
  let r1 := traded_request w in
  let r2 := first_seen_request w in
  (db st0 = db st /\ requests st0 = requests st) /\
  (forall e, data_api env n r1 = Raises e ->
     get_wallet_profile w env st = (inl e, sent r1 st0)) /\
  (forall v1 e,
     data_api env n r1 = Returns v1 ->
     data_api env (S n) r2 = Raises e ->
     get_wallet_profile w env st = (inl e, sent r2 (sent r1 st0))) /\
  (forall v1 v2 fs now1 e,
     data_api env n r1 = Returns v1 ->
     data_api env (S n) r2 = Returns v2 ->
     first_seen_of v2 = inr fs ->
     PyFloat.to_Z (clock env (ticks st0)) = Some now1 ->
     data_api env (S (S n)) (recent_cash_request w now1) = Raises e ->
     get_wallet_profile w env st =
     (inl e, sent (recent_cash_request w now1) (tick (sent r2 (sent r1 st0))))) /\
  (forall v1 v2 v3 fs rc now1 now2,
     data_api env n r1 = Returns v1 ->
     data_api env (S n) r2 = Returns v2 ->
     first_seen_of v2 = inr fs ->
     PyFloat.to_Z (clock env (ticks st0)) = Some now1 ->
     data_api env (S (S n)) (recent_cash_request w now1) = Returns v3 ->
     recent_cash_of v3 = inr rc ->
     PyFloat.to_Z (clock env (S (ticks st0))) = Some now2 ->
     let p := {| wallet := w; traded_markets := traded_of v1;
                 first_seen_ts := fs; recent_cash_24h := rc |} in
     get_wallet_profile w env st =
     (inr p,
      with_db (set_wallet_cache (cache_after p now2 (wallet_cache (db st0))))
        (tick (sent (recent_cash_request w now1) (tick (sent r2 (sent r1 st0))))))) /\
  (forall entries, dict_get "traded" entries = None -> traded_of (VDict entries) = None) /\
  traded_of VNone = None /\
  first_seen_of (VList []) = inr None /\
  recent_cash_of (VList []) = inr None.
Proof.
  intros Hmiss n r1 r2.
  pose proof (refresh_run w env st st0 Hmiss) as Hrun. cbv zeta in Hrun.
  fold n r1 r2 in Hrun.
  split.
  { pose proof (get_wallet_cache_frame w DEFAULT_MAX_AGE env st) as Hf.
    rewrite Hmiss in Hf. exact Hf. }
  split.
  { intros e H1. rewrite Hrun, H1. reflexivity. }
  split.
  { intros v1 e H1 H2. rewrite Hrun, H1, H2. reflexivity. }
  split.
  { intros v1 v2 fs now1 e H1 H2 Hfs Hnow1 H3.
    rewrite Hrun, H1, H2, Hfs, Hnow1, H3. reflexivity. }
  split.
  { intros v1 v2 v3 fs rc now1 now2 H1 H2 Hfs Hnow1 H3 Hrc Hnow2 p.
    rewrite Hrun, H1, H2, Hfs, Hnow1, H3, Hrc, Hnow2. reflexivity. }
  split.
  { intros entries H. simpl. rewrite H. reflexivity. }
  repeat split.
Qed.

End Refresh.

(** The theorem on a new database, against an API whose [/traded] body lacks
    the count: the other two attributes are read and the profile is cached. *)
Lemma refresh_tolerates_absence_not_failure_witness :
  get_wallet_profile (RT := plain_runtime) "0xa11ce" env_partial (boot None) =
  (inr {| wallet := "0xa11ce"; traded_markets := None;
          first_seen_ts := Some (midnight - 5 * 86400);
          recent_cash_24h := Some (PyFloat.lit 20000) |},
   snd (get_wallet_profile (RT := plain_runtime) "0xa11ce" env_partial (boot None))) /\
  List.length (wallet_cache
    (db (snd (get_wallet_profile (RT := plain_runtime) "0xa11ce" env_partial (boot None)))))
  = 1%nat.
Proof.
  destruct (refresh_tolerates_absence_not_failure (RT := plain_runtime)
              "0xa11ce" env_partial (boot None) (boot None) eq_refl)
    as (_ & _ & _ & _ & Hok & _).
  rewrite (Hok (VDict [("user", VStr "0xa11ce")])
               (VList [VDict [("timestamp", VInt (midnight - 5 * 86400))]])
               (VList [VDict [("usdcSize", VFloat (PyFloat.lit 20000))]])
               (Some (midnight - 5 * 86400)) (Some (PyFloat.lit 20000))
               midnight (midnight + 1)
               eq_refl eq_refl eq_refl eq_refl eq_refl eq_refl eq_refl).
  split; reflexivity.
Defined.

(** C2, as stated, fails: when the first request meets an error status,
    [get_wallet_profile] raises; one request was sent and the cache is still
    empty. *)
Lemma failed_fetch_stops_the_refresh :
  fst (get_wallet_profile (RT := plain_runtime) "0xa11ce" env_down (boot None))
  = inl HTTPError /\
  requests (snd (get_wallet_profile (RT := plain_runtime) "0xa11ce" env_down (boot None)))
  = [traded_request "0xa11ce"] /\
  wallet_cache (db (snd (get_wallet_profile (RT := plain_runtime) "0xa11ce" env_down (boot None))))
  = [].
Proof. repeat split. Qed.

Section Freshness.
Context {RT : PyRuntime}.

(** A refresh that returns has put the profile in the cache under the time read
    at the write; one that raises has left the cache as it was. Either way the
    first request went out. *)
Lemma refresh_outcome (w : string) (env : Env) (st st0 : State) :
  db_get_wallet_cache w DEFAULT_MAX_AGE env st = (inr None, st0) ->
  (exists tl, requests (snd (get_wallet_profile w env st))
              = requests st0 ++ traded_request w :: tl) /\
  match get_wallet_profile w env st with
  | (inr p, st') =>
      wallet p = w /\
      exists now',
        PyFloat.to_Z (clock env (S (ticks st0))) = Some now' /\
        wallet_cache (db st') = cache_after p now' (wallet_cache (db st0)) /\
        List.length (requests st') = (3 + List.length (requests st0))%nat
  | (inl _, st') => wallet_cache (db st') = wallet_cache (db st0)
  end.
Proof.
  intros Hmiss. rewrite (refresh_run w env st st0 Hmiss). cbv zeta.
  destruct (data_api env _ (traded_request w)) as [e|v1].
  { split; [exists []; reflexivity | reflexivity]. }
  destruct (data_api env _ (first_seen_request w)) as [e|v2].
  { stopped. }
  destruct (first_seen_of v2) as [e|fs].
  { stopped. }
  destruct (PyFloat.to_Z (clock env (ticks st0))) as [now1|].
  2: { stopped. }
  destruct (data_api env _ (recent_cash_request w now1)) as [e|v3].
  { stopped. }
  destruct (recent_cash_of v3) as [e|rc].
  { stopped. }
  destruct (PyFloat.to_Z (clock env (S (ticks st0)))) as [now2|].
  2: { stopped. }
  split; [eexists; simpl; rewrite <- !app_assoc; reflexivity |].
  split; [reflexivity|]. exists now2. split; [reflexivity|]. split; [reflexivity|].
  simpl. rewrite !length_snoc. reflexivity.
Qed.

(** C5, as the code has it. With a row for the wallet written at [T] and a
    clock that reads [now] (in whole seconds): the lookup gives the cached
    profile exactly when [now - T <= max_age]. Within [DEFAULT_MAX_AGE],
    [get_wallet_profile] returns the cached profile, sends no request and
    leaves the database as it is. Past it, the cached row is ignored and the
    refresh starts with the [/traded] request; when the refresh returns, the
    wallet's row is the profile returned, stamped with the time read at the
    write (two clock readings after the lookup's), and three requests were
    sent; when a fetch raises, the old row stays. *)
Theorem cache_freshness (w : string) (env : Env) (st : State) (row : cache_row)
    (T now max_age : Z) :
  select_one cr_wallet w (wallet_cache (db st)) = Some row ->
  cr_updated_at row = Some T ->
  PyFloat.to_Z (clock env (ticks st)) = Some now ->
  db_get_wallet_cache w max_age env st =
    (inr (if now - T <=? max_age then Some (profile_of_row w row) else None), tick st) /\
  (now - T <= DEFAULT_MAX_AGE ->
   get_wallet_profile w env st = (inr (profile_of_row w row), tick st)) /\
  (DEFAULT_MAX_AGE < now - T ->
   (exists tl, requests (snd (get_wallet_profile w env st))
               = requests st ++ traded_request w :: tl) /\
   match get_wallet_profile w env st with
   | (inr p, st') =>
       exists now',
         PyFloat.to_Z (clock env (2 + ticks st)) = Some now' /\
         wallet_cache (db st') = cache_after p now' (wallet_cache (db st)) /\
         rows_with cr_wallet w (wallet_cache (db st')) = [cache_row_of p now'] /\
         List.length (requests st') = (3 + List.length (requests st))%nat
   | (inl _, st') => wallet_cache (db st') = wallet_cache (db st)
   end).
Proof.
  intros Hrow HT Hnow.
  assert (Hlookup : forall a,
            db_get_wallet_cache w a env st =
            (inr (if now - T <=? a then Some (profile_of_row w row) else None), tick st)).
  { intros a. rewrite get_wallet_cache_run, Hrow, Hnow, HT. reflexivity. }
  split; [apply Hlookup|]. split.
  - intros Hfresh. unfold get_wallet_profile, bind. rewrite Hlookup.
    destruct (Z.leb_spec (now - T) DEFAULT_MAX_AGE); [reflexivity | lia].
  - intros Hstale.
    assert (Hmiss : db_get_wallet_cache w DEFAULT_MAX_AGE env st = (inr None, tick st)).
    { rewrite Hlookup. destruct (Z.leb_spec (now - T) DEFAULT_MAX_AGE); [lia | reflexivity]. }
    destruct (refresh_outcome w env st (tick st) Hmiss) as [Hreq Hout].
    split; [exact Hreq|].
    destruct (get_wallet_profile w env st) as [[e|p] st']; [exact Hout|].
    destruct Hout as (Hw & now' & Hclock & Hcache & Hlen).
    exists now'. split; [exact Hclock|]. split; [exact Hcache|]. split; [|exact Hlen].
    rewrite Hcache. unfold cache_after. subst w.
    exact (replace_rows_with cr_wallet (cache_row_of p now') _).
Qed.

End Freshness.

(** The theorem at a row written an hour before the lookup, which is served
    from the cache, and at a row written seven hours before it, which is not:
    the refresh sends its first request. *)
Lemma cache_freshness_witness :
  get_wallet_profile (RT := plain_runtime) "0xa11ce" env_down fresh_state
  = (inr (profile_of_row "0xa11ce" fresh_row), tick fresh_state) /\
  exists tl,
    requests (snd (get_wallet_profile (RT := plain_runtime) "0xa11ce" env_partial stale_state))
    = requests stale_state ++ traded_request "0xa11ce" :: tl.
Proof.
  split.
  - destruct (cache_freshness (RT := plain_runtime) "0xa11ce" env_down fresh_state
                fresh_row (midnight - 3600) midnight DEFAULT_MAX_AGE
                eq_refl eq_refl eq_refl) as (_ & Hfresh & _).
    apply Hfresh. vm_compute. discriminate.
  - destruct (cache_freshness (RT := plain_runtime) "0xa11ce" env_partial stale_state
                stale_row (midnight - 7 * 3600) midnight DEFAULT_MAX_AGE
                eq_refl eq_refl eq_refl) as (_ & _ & Hstale).
    destruct Hstale as [Hreq _]; [vm_compute; reflexivity | exact Hreq].
Defined.

(** C5, as stated, fails in its second half: with a row written seven hours
    before the lookup and an API that answers with an error status, the
    refresh is started and raises, and the row is not overwritten. *)
Lemma stale_row_survives_failed_refresh :
  (DEFAULT_MAX_AGE <? midnight - (midnight - 7 * 3600)) = true /\
  fst (get_wallet_profile (RT := plain_runtime) "0xa11ce" env_down stale_state)
  = inl HTTPError /\
  requests (snd (get_wallet_profile (RT := plain_runtime) "0xa11ce" env_down stale_state))
  = [traded_request "0xa11ce"] /\
  wallet_cache (db (snd (get_wallet_profile (RT := plain_runtime) "0xa11ce" env_down stale_state)))
  = [stale_row].
Proof. repeat split. Qed.

(** ** The example scenario through the loop body *)

(** The trade of the example scenario, second hit of its wallet in the window,
    goes through the whole loop body: the profile is fetched and cached, the
    score is 9 with 2 cluster hits, the alert is printed and posted, and the
    trade is marked seen. *)
Example scenario_alert_fires :
  let run := process_trade (RT := plain_runtime) recent_trade env_scenario one_hit_state in
  fst run = inr tt /\
  map al_score (console (snd run)) = [9] /\
  map al_cluster_hits (console (snd run)) = [2] /\
  map (fun a => map weight_of (al_reasons a)) (console (snd run)) = [[3; 2; 2; 2]] /\
  discord (snd run) = console (snd run) /\
  seen_count "0x02" (db (snd run)) = 1%nat /\
  List.length (wallet_cache (db (snd run))) = 1%nat /\
  List.length (requests (snd run)) = 3%nat.
Proof. vm_compute. repeat split. Qed.
